(** * cfn-lint: scope contexts and the shared intrinsic-function rule

    A shallow embedding of [src/cfnlint/context/context.py] and
    [src/cfnlint/rules/functions/_BaseFn.py], and the properties of the
    specification checked against it.

    Layout: [Py] holds the fragment of the Python runtime the two files rely
    on (template values, exceptions, generators, [repr], [str.replace]);
    [Re] the one regular expression of the macro expansion; the modules
    [Transforms] to [ContextManager] the classes of the first source file;
    [ValidationError] and [BaseFn] the second.  The theorems follow the
    definitions. *)

From Stdlib Require Import ZArith String Ascii List Lia DecimalString.
From stdpp Require Import base option list gmap strings.

Local Open Scope string_scope.
Set Warnings "-register-all".

(** ** The Python runtime fragment *)

Module Py.

(** Template values as the YAML/JSON loader hands them over.  Mappings keep
    their insertion order, as Python dicts do, and have string keys.  Text is
    taken to be ASCII; floats do not occur in the code paths modelled here. *)
Inductive value : Type :=
| VNone
| VBool (b : bool)
| VInt (n : Z)
| VStr (s : string)
| VList (items : list value)
| VDict (entries : list (string * value)).

(** The exceptions the two files can meet.  [Unmodelled] is not a Python
    exception: it marks a run that left the transcribed fragment (a loop
    identifier that is a regular-expression operator, a reference that no
    Python heap can hold). *)
Inductive exn : Type :=
| ValueError (msg : string)
| AttributeError
| TypeError
| KeyError
| IndexError
| NameError
| RecursionError
| Unmodelled.

(** A call either returns or raises. *)
Definition result (A : Type) : Type := exn + A.

#[export] Instance result_ret : MRet result := fun A x => inr x.
#[export] Instance result_bind : MBind result := fun A B f m =>
  match m with
  | inl e => inl e
  | inr x => f x
  end.

Definition raise {A : Type} (e : exn) : result A := inl e.

(** A generator run to its end: what it yielded, in order, and the exception
    that ended it, if one did. *)
Record gen (A : Type) : Type := Gen { yielded : list A; raised : option exn }.
Arguments Gen {A} _ _.
Arguments yielded {A} _.
Arguments raised {A} _.

Definition gen_done {A : Type} : gen A := Gen [] None.
Definition gen_raise {A : Type} (e : exn) : gen A := Gen [] (Some e).
Definition gen_yield {A : Type} (x : A) (g : gen A) : gen A :=
  Gen (x :: yielded g) (raised g).

(** [yield from g1] followed by the rest of the body [g2]. *)
Definition gen_seq {A : Type} (g1 g2 : gen A) : gen A :=
  match raised g1 with
  | Some _ => g1
  | None => Gen (yielded g1 ++ yielded g2) (raised g2)
  end.

(** [for x in xs: yield from f x]. *)
Fixpoint gen_concat {A : Type} (gs : list (gen A)) : gen A :=
  match gs with
  | [] => gen_done
  | g :: gs' => gen_seq g (gen_concat gs')
  end.

(** *** Mappings in insertion order *)

Fixpoint dict_get {A : Type} (k : string) (d : list (string * A)) : option A :=
  match d with
  | [] => None
  | (k', v) :: d' => if String.eqb k k' then Some v else dict_get k d'
  end.

(** [d[k] = v]: an existing key keeps its place, a new one goes last. *)
Fixpoint dict_set {A : Type} (k : string) (v : A) (d : list (string * A))
  : list (string * A) :=
  match d with
  | [] => [(k, v)]
  | (k', v') :: d' =>
      if String.eqb k k' then (k, v) :: d' else (k', v') :: dict_set k v d'
  end.

Definition dict_keys {A : Type} (d : list (string * A)) : list string :=
  map fst d.

(** [x.get(k)] on a template value: only mappings have [get]. *)
Definition py_get (x : value) (k : string) : result value :=
  match x with
  | VDict d => mret (default VNone (dict_get k d))
  | _ => raise AttributeError
  end.

(** [x.get(k, dflt)]. *)
Definition py_get_default (x : value) (k : string) (dflt : value) : result value :=
  match x with
  | VDict d => mret (default dflt (dict_get k d))
  | _ => raise AttributeError
  end.

(** *** Built-in operations on values *)

(** Truth value testing. *)
Definition truthy (v : value) : bool :=
  match v with
  | VNone => false
  | VBool b => b
  | VInt n => negb (Z.eqb n 0)
  | VStr s => negb (String.eqb s "")
  | VList l => match l with [] => false | _ => true end
  | VDict d => match d with [] => false | _ => true end
  end.

Definition chars (s : string) : list value :=
  map (fun c => VStr (String c EmptyString)) (list_ascii_of_string s).

(** [len(v)]. *)
Definition py_len (v : value) : result nat :=
  match v with
  | VStr s => mret (String.length s)
  | VList l => mret (length l)
  | VDict d => mret (length d)
  | _ => raise TypeError
  end.

(** [v[i]] for a literal index [i]. *)
Definition py_index (v : value) (i : nat) : result value :=
  match v with
  | VStr s => match chars s !! i with Some c => mret c | None => raise IndexError end
  | VList l => match l !! i with Some x => mret x | None => raise IndexError end
  | VDict _ => raise KeyError
  | _ => raise TypeError
  end.

(** [for x in v]: the items the loop visits. *)
Definition py_iter (v : value) : result (list value) :=
  match v with
  | VStr s => mret (chars s)
  | VList l => mret l
  | VDict d => mret (map VStr (dict_keys d))
  | _ => raise TypeError
  end.

(** Lists and dicts cannot be dictionary keys. *)
Definition hashable (v : value) : bool :=
  match v with
  | VList _ | VDict _ => false
  | _ => true
  end.

(** *** [repr] *)

Definition backslash : ascii := ascii_of_nat 92.
Definition dquote : ascii := ascii_of_nat 34.
Definition squote : ascii := ascii_of_nat 39.

Definition str1 (c : ascii) : string := String c EmptyString.

Fixpoint contains_char (c : ascii) (s : string) : bool :=
  match s with
  | EmptyString => false
  | String x s' => Ascii.eqb x c || contains_char c s'
  end.

Definition hex_digit (n : nat) : ascii :=
  nth n (list_ascii_of_string "0123456789abcdef") "0"%char.

(** One character of a string literal quoted with [q]. *)
Definition repr_char (q c : ascii) : string :=
  let n := nat_of_ascii c in
  if Ascii.eqb c backslash then String backslash (str1 backslash)
  else if Ascii.eqb c q then String backslash (str1 q)
  else if Nat.eqb n 9 then String backslash "t"
  else if Nat.eqb n 10 then String backslash "n"
  else if Nat.eqb n 13 then String backslash "r"
  else if Nat.ltb n 32 || Nat.eqb n 127
       then String backslash (String "x" (String (hex_digit (n / 16)) (str1 (hex_digit (n mod 16)))))
  else str1 c.

Fixpoint repr_chars (q : ascii) (s : string) : string :=
  match s with
  | EmptyString => EmptyString
  | String c s' => repr_char q c +:+ repr_chars q s'
  end.

(** Single quotes, unless the text has a single quote and no double quote. *)
Definition repr_str (s : string) : string :=
  let q := if contains_char squote s && negb (contains_char dquote s)
           then dquote else squote in
  str1 q +:+ repr_chars q s +:+ str1 q.

Fixpoint join (sep : string) (l : list string) : string :=
  match l with
  | [] => ""
  | [x] => x
  | x :: l' => x +:+ sep +:+ join sep l'
  end.

Fixpoint repr (v : value) : string :=
  match v with
  | VNone => "None"
  | VBool true => "True"
  | VBool false => "False"
  | VInt n => NilZero.string_of_int (Z.to_int n)
  | VStr s => repr_str s
  | VList l => "[" +:+ join ", " (map repr l) +:+ "]"
  | VDict d =>
      "{" +:+ join ", " (map (fun kv => repr_str (fst kv) +:+ ": " +:+ repr (snd kv)) d)
          +:+ "}"
  end.

(** *** [str.replace] and substring tests *)

Fixpoint drop_str (n : nat) (s : string) : string :=
  match n, s with
  | O, _ => s
  | S n', EmptyString => EmptyString
  | S n', String _ s' => drop_str n' s'
  end.

(** [s.replace(old, new)] for a non-empty [old]; [skip] counts the characters
    of a match still to be passed over. *)
Fixpoint replace_from (old new : string) (skip : nat) (s : string) : string :=
  match s with
  | EmptyString => EmptyString
  | String c s' =>
      match skip with
      | S k => replace_from old new k s'
      | O =>
          if String.prefix old s
          then new +:+ replace_from old new (String.length old - 1) s'
          else String c (replace_from old new 0 s')
      end
  end.

Fixpoint intersperse_str (new : string) (s : string) : string :=
  match s with
  | EmptyString => new
  | String c s' => new +:+ String c (intersperse_str new s')
  end.

Definition replace (s old new : string) : string :=
  match old with
  | EmptyString => intersperse_str new s
  | _ => replace_from old new 0 s
  end.

(** [sub in s]. *)
Fixpoint substring_of (sub s : string) : bool :=
  String.prefix sub s ||
  match s with
  | EmptyString => false
  | String _ s' => substring_of sub s'
  end.

End Py.

Import Py.

(** ** The regular expression of the macro expansion

    [_expand_foreach] rewrites a key with
    [re.sub(rf"\${{\s?{id}\s?}}", iteration, k)]: a dollar sign, an opening
    brace, at most one blank, the text of [id], at most one blank, a closing
    brace.  The matcher below follows the backtracking order of the engine
    for an [id] of one character that is not a regular-expression operator;
    [\s] is the ASCII class (space, tab, newline, vertical tab, form feed,
    carriage return). *)

Module Re.

Definition is_space (c : ascii) : bool :=
  let n := nat_of_ascii c in
  Nat.eqb n 32 || (Nat.leb 9 n && Nat.leb n 13).

Definition is_operator (c : ascii) : bool :=
  contains_char c ".^$*+?{}[]|()" || Ascii.eqb c backslash.

(** [\s?\}] at the head of [s]: the number of characters matched. *)
Definition match_close (s : string) : option nat :=
  match s with
  | EmptyString => None
  | String w r =>
      if is_space w
      then match r with
           | String "}" _ => Some 2
           | _ => None
           end
      else if Ascii.eqb w "}" then Some 1 else None
  end.

(** [c\s?\}]. *)
Definition match_id (c : ascii) (s : string) : option nat :=
  match s with
  | EmptyString => None
  | String x r => if Ascii.eqb x c then S <$> match_close r else None
  end.

(** [\s?c\s?\}]: the blank is tried first, then given back. *)
Definition match_blank_id (c : ascii) (s : string) : option nat :=
  match s with
  | EmptyString => None
  | String w r =>
      if is_space w
      then match match_id c r with
           | Some n => Some (S n)
           | None => match_id c s
           end
      else match_id c s
  end.

(** The whole pattern at the head of [s]. *)
Definition match_here (c : ascii) (s : string) : option nat :=
  match s with
  | String "$" (String "{" r) => (fun n => 2 + n) <$> match_blank_id c r
  | _ => None
  end.

(** Every match, left to right, is replaced by [repl]. *)
Fixpoint sub_from (c : ascii) (repl : string) (skip : nat) (s : string) : string :=
  match s with
  | EmptyString => EmptyString
  | String x s' =>
      match skip with
      | S k => sub_from c repl k s'
      | O =>
          match match_here c s with
          | Some n => repl +:+ sub_from c repl (n - 1) s'
          | None => String x (sub_from c repl 0 s')
          end
      end
  end.

(** [re.sub(rf"\${{\s?{id}\s?}}", repl, k)]; [None] when [id] is not one
    plain character or [repl] holds a backslash (a template escape). *)
Definition sub (id repl k : string) : option string :=
  match id with
  | String c EmptyString =>
      if is_operator c || contains_char backslash repl
      then None
      else Some (sub_from c repl 0 k)
  | _ => None
  end.

End Re.

(** ** context.py *)

(** *** Pseudo parameters *)

(** Modelled from the spec: the constant [PSEUDOPARAMS] comes from
    [cfnlint.helpers], which is not among the sources; the spec lists the
    recognised pseudo parameters, the eight names [_get_pseudo_value] tests
    for. *)
Definition PSEUDOPARAMS : list string :=
  [ "AWS::AccountId"; "AWS::NotificationARNs"; "AWS::NoValue"; "AWS::Partition";
    "AWS::Region"; "AWS::StackId"; "AWS::StackName"; "AWS::URLSuffix" ].

(** [region in (a, b)] *)
Definition region_in (region a b : string) : bool :=
  String.eqb region a || String.eqb region b.

Definition _get_partition (region : string) : string :=
  if region_in region "us-gov-east-1" "us-gov-west-1" then "aws-us-gov"
  else if region_in region "cn-north-1" "cn-northwest-1" then "aws-cn"
  else "aws".

Definition _get_pseudo_value (parameter region : string) : value :=
  if String.eqb parameter "AWS::AccountId" then VStr "123456789012"
  else if String.eqb parameter "AWS::NotificationARNs" then
    VList [VStr ("arn:" +:+ _get_partition region +:+ ":sns:" +:+ region
                 +:+ ":123456789012:notification")]
  else if String.eqb parameter "AWS::NoValue" then VNone
  else if String.eqb parameter "AWS::Partition" then VStr (_get_partition region)
  else if String.eqb parameter "AWS::Region" then VStr region
  else if String.eqb parameter "AWS::StackId" then
    VStr ("arn:" +:+ _get_partition region +:+ ":cloudformation:" +:+ region
          +:+ ":123456789012:stack/teststack/51af3dc0-da77-11e4-872e-1234567db123")
  else if String.eqb parameter "AWS::StackName" then VStr "teststack"
  else if String.eqb parameter "AWS::URLSuffix" then
    if region_in region "cn-north-1" "cn-northwest-1"
    then VStr "amazonaws.com.cn"
    else VStr "amazonaws.com"
  else VNone.

(** *** Transforms *)

Module Transforms.

Record t : Type := mk { _transforms : list string }.

Fixpoint append_all (transforms : list value) (acc : list string)
  : result (list string) :=
  match transforms with
  | [] => mret acc
  | VStr s :: rest => append_all rest (acc ++ [s])
  | _ :: _ => raise (ValueError "Transform must be a string")
  end.

(** [Transforms(transforms)] *)
Definition __post_init__ (transforms : value) : result t :=
  match transforms with
  | VNone => mret (mk [])
  | VList l => l' ← append_all l []; mret (mk l')
  | other => l' ← append_all [other] []; mret (mk l')
  end.

Definition has_language_extensions_transform (self : t) : bool :=
  existsb (String.eqb "AWS::LanguageExtensions") (_transforms self).

End Transforms.

(** *** Symbol entities *)

Module Condition.

Record t : Type := mk { instance : value }.

End Condition.

(** The class [Parameter]; the bare name is a keyword of Rocq. *)
Module Parameter_.

Record t : Type :=
  mk { type : string; default : value; allowed_values : value; description : value }.

(** [Parameter(parameter)] *)
Definition __post_init__ (parameter : value) : result t :=
  ty ← py_get parameter "Type";
  match ty with
  | VStr s =>
      d ← py_get parameter "Default";
      a ← py_get parameter "AllowedValues";
      de ← py_get parameter "Description";
      mret (mk s d a de)
  | _ => raise (ValueError "Type must be a string")
  end.

(** [ref(self, context)]; the context is not looked at. *)
Definition ref {C : Type} (self : t) (context : C) : gen value :=
  gen_seq
    (if truthy (default self) then Gen [default self] None else gen_done)
    (if truthy (allowed_values self)
     then match py_iter (allowed_values self) with
          | inl e => gen_raise e
          | inr items => Gen items None
          end
     else gen_done).

End Parameter_.

Module Resource.

Record t : Type := mk { type : string }.

(** [Resource(resource)] *)
Definition __post_init__ (resource : value) : result t :=
  ty ← py_get resource "Type";
  match ty with
  | VStr s => mret (mk s)
  | _ => raise (ValueError "Type must be a string")
  end.

Definition ref {C : Type} (self : t) (context : C) : gen value := gen_done.

End Resource.

Module ForEach.

Record t : Type := mk { identifier : string; collection : value; output : value }.

(** [_ForEachCollection] called with the positional arguments [args]: the
    dataclass declares no field, so its generated [__init__] takes none. *)
Definition _ForEachCollection (args : list value) : result unit :=
  match args with
  | [] => mret tt
  | _ :: _ => raise TypeError
  end.

Section ForEach.

(** [get_hash] comes from [cfnlint.helpers]; it may return or raise. *)
Variable get_hash : value -> result string.

(** [__post_init__(self, foreach)]: the body binds locals only, sets no
    field of [self], and returns [None]. *)
Definition __post_init__ (foreach : value) : result unit :=
  identifier ← py_index foreach 0;
  hashed ← py_index foreach 1;
  h ← get_hash hashed;
  arg ← py_index foreach 1;
  collection ← _ForEachCollection [arg];
  mret tt.

End ForEach.

End ForEach.

(** *** Context

    [evolve] copies some of the parent's containers and hands others on by
    reference, and the constructor writes into the mapping it is given.  The
    [path] and [value_path] deques and the [ref_values] dict therefore live
    in a store, and a context holds their addresses.  The symbol tables are
    only read by the functions modelled here and are held by value. *)

Module Context.

Definition loc : Type := positive.

Inductive obj : Type :=
| ODeque (items : list value)
| ODict (m : gmap string value).

(** A new object at an address the store does not use. *)
Definition alloc (h : gmap loc obj) (o : obj) : gmap loc obj * loc :=
  let l := fresh (dom h) in (<[l := o]> h, l).

Record t : Type := mk {
  region : string;
  functions : list string;
  path : loc;
  value_path : loc;
  parameters : list (string * Parameter_.t);
  resources : list (string * Resource.t);
  conditions : list (string * Condition.t);
  ref_values : loc;
  fn_foreach : list (string * ForEach.t);
  resolved_value : bool;
  resolved_conditions : list (string * bool);
  transforms : Transforms.t
}.

(** The arguments [evolve] passes to the constructor: [ref_values] and
    [transforms] may be [None]. *)
Record init_args : Type := mk_args {
  a_region : string;
  a_functions : list string;
  a_path : loc;
  a_value_path : loc;
  a_parameters : list (string * Parameter_.t);
  a_resources : list (string * Resource.t);
  a_conditions : list (string * Condition.t);
  a_ref_values : option loc;
  a_fn_foreach : list (string * ForEach.t);
  a_resolved_value : bool;
  a_resolved_conditions : list (string * bool);
  a_transforms : option Transforms.t
}.

(** The loop of [__post_init__] on the mapping itself:
    [ref_values[p] = [_get_pseudo_value(p, region)]] for each [p]. *)
Definition set_pseudo (region : string) (m : gmap string value) : gmap string value :=
  foldl (fun acc p => <[p := VList [_get_pseudo_value p region]]> acc) m PSEUDOPARAMS.

(** The generated [__init__] followed by [__post_init__].  A [None] for
    [transforms] reaches the module-level name [_init_transforms], which does
    not exist; a [None] for [ref_values] cannot be assigned into. *)
Definition __post_init__ (h : gmap loc obj) (a : init_args)
  : gmap loc obj * result t :=
  match a_transforms a with
  | None => (h, raise NameError)
  | Some tr =>
      match a_ref_values a with
      | None => (h, raise TypeError)
      | Some l =>
          match h !! l with
          | Some (ODict m) =>
              (<[l := ODict (set_pseudo (a_region a) m)]> h,
               mret (mk (a_region a) (a_functions a) (a_path a) (a_value_path a)
                        (a_parameters a) (a_resources a) (a_conditions a) l
                        (a_fn_foreach a) (a_resolved_value a)
                        (a_resolved_conditions a) tr))
          | _ => (h, raise Unmodelled)
          end
      end
  end.

(** The keyword arguments of [evolve]: an absent keyword is [None]; for
    [ref_values] and [transforms] a keyword that is present may itself carry
    Python's [None].  For [path] an absent keyword and a [None] are treated
    alike by the code, so [kw_path] holds the segment ([VNone] for [None]). *)
Record kwargs : Type := mk_kwargs {
  kw_region : option string;
  kw_functions : option (list string);
  kw_path : option value;
  kw_value_path : option loc;
  kw_parameters : option (list (string * Parameter_.t));
  kw_resources : option (list (string * Resource.t));
  kw_conditions : option (list (string * Condition.t));
  kw_ref_values : option (option (gmap string value));
  kw_fn_foreach : option (list (string * ForEach.t));
  kw_resolved_value : option bool;
  kw_resolved_conditions : option (list (string * bool));
  kw_transforms : option (option Transforms.t)
}.

Definition no_kwargs : kwargs :=
  mk_kwargs None None None None None None None None None None None None.

Definition is_none (v : value) : bool :=
  match v with
  | VNone => true
  | _ => false
  end.

(** [self.path.copy()], with the segment appended when one is given. *)
Definition evolve_path (items : list value) (kw : option value) : list value :=
  match kw with
  | Some seg => if is_none seg then items else items ++ [seg]
  | None => items
  end.

Definition evolve (h : gmap loc obj) (self : t) (kw : kwargs)
  : gmap loc obj * result t :=
  match h !! path self, h !! ref_values self with
  | Some (ODeque items), Some (ODict m) =>
      (* kwargs["path"] = a copy of self.path, extended or not *)
      let '(h1, p) := alloc h (ODeque (evolve_path items (kw_path kw))) in
      (* kwargs["ref_values"]: a merged copy when an override is given *)
      let '(h2, rv) :=
        match kw_ref_values kw with
        | Some (Some override) =>
            let '(h', l) := alloc h1 (ODict (override ∪ m)) in (h', Some l)
        | Some None => (h1, None)
        | None => (h1, Some (ref_values self))
        end in
      (* kwargs.setdefault(f.name, getattr(self, f.name)) for the rest *)
      __post_init__ h2
        (mk_args (default (region self) (kw_region kw))
                 (default (functions self) (kw_functions kw))
                 p
                 (default (value_path self) (kw_value_path kw))
                 (default (parameters self) (kw_parameters kw))
                 (default (resources self) (kw_resources kw))
                 (default (conditions self) (kw_conditions kw))
                 rv
                 (default (fn_foreach self) (kw_fn_foreach kw))
                 (default (resolved_value self) (kw_resolved_value kw))
                 (default (resolved_conditions self) (kw_resolved_conditions kw))
                 (default (Some (transforms self)) (kw_transforms kw)))
  | _, _ => (h, raise Unmodelled)
  end.

(** [self.refs]: the names of the parameters and of the resources in the
    order of their tables, then the keys of [ref_values], which the store
    keeps as a finite map: their order among themselves is not the order of
    insertion of the Python dict. *)
Definition refs (h : gmap loc obj) (self : t) : result (list string) :=
  match h !! ref_values self with
  | Some (ODict m) =>
      mret ((dict_keys (parameters self) ++ dict_keys (resources self)
             ++ (map_to_list m).*1)%list)
  | _ => raise Unmodelled
  end.

Section fn_value.

(** [fn_value] hands [Fn::FindInMap] to [self.fn_find_in_map], which the
    class does not define in the sources at hand; it is a parameter here and
    [fn_find_in_map_absent] is what the attribute lookup does without it. *)
Variable fn_find_in_map : t -> value -> gen value.

Definition fn_value (h : gmap loc obj) (self : t) (instance : list (string * value))
  : gen value :=
  match instance with
  | [(k, v)] =>
      if String.eqb k "Ref" then
        if hashable v then
          match h !! ref_values self with
          | Some (ODict m) =>
              match v with
              | VStr name =>
                  gen_seq
                    (match m !! name with
                     | Some x => Gen [x] None
                     | None => gen_done
                     end)
                    (match dict_get name (parameters self) with
                     | Some p => Parameter_.ref p self
                     | None => gen_done
                     end)
              | _ => gen_done
              end
          | _ => gen_raise Unmodelled
          end
        else gen_raise TypeError
      else
        gen_seq
          (if String.eqb k "Fn::FindInMap" then fn_find_in_map self v else gen_done)
          (gen_raise (ValueError ("Unsupported value " +:+ repr v)))
  | _ =>
      gen_raise
        (ValueError ("Fn::Value can only have one key, got: "
                     +:+ repr (VList (map VStr (dict_keys instance)))))
  end.

End fn_value.

Definition fn_find_in_map_absent (self : t) (v : value) : gen value :=
  gen_raise AttributeError.

End Context.

(** *** ContextManager *)

Module ContextManager.

Record t : Type := mk {
  parameters : list (string * Parameter_.t);
  resources : list (string * Resource.t);
  transforms : Transforms.t;
  conditions : list (string * Condition.t)
}.

(** [id, iteration = key]: unpacking a string needs exactly two characters. *)
Definition unpack_pair (key : string) : result (string * string) :=
  match key with
  | EmptyString => raise (ValueError "not enough values to unpack (expected 2, got 0)")
  | String _ EmptyString =>
      raise (ValueError "not enough values to unpack (expected 2, got 1)")
  | String a (String b EmptyString) => mret (str1 a, str1 b)
  | _ => raise (ValueError "too many values to unpack (expected 2)")
  end.

(** [for id, iteration in values: k = re.sub(..., iteration, k)].  Iterating
    a dict visits its keys, so it is each key that is unpacked. *)
Fixpoint rewrite_key (keys : list string) (k : string) : result string :=
  match keys with
  | [] => mret k
  | key :: keys' =>
      '(id, iteration) ← unpack_pair key;
      match Re.sub id iteration k with
      | Some k' => rewrite_key keys' k'
      | None => raise Unmodelled
      end
  end.

Definition is_value_error (e : exn) : bool :=
  match e with
  | ValueError _ => true
  | _ => false
  end.

(** [try: body except ValueError: pass], followed by the rest of the loop:
    what the body yielded before the error stays yielded. *)
Definition try_then {A : Type} (body rest : gen A) : gen A :=
  match raised body with
  | Some e =>
      if is_value_error e
      then Gen (yielded body ++ yielded rest) (raised rest)
      else body
  | None => gen_seq body rest
  end.

(** The branch of a key that starts with [Fn::ForEach::]; [expand] is
    [_expand_foreach] itself.  A value of length three that is not a list is
    a str of three characters, whose [v[2]] is a str and not a dict, or a
    dict of three entries, whose [v[0]] is a [KeyError]. *)
Definition loop_construct
  (expand : value -> list (string * value) -> gen (string * value)) (v : value)
  : gen (string * value) :=
  match py_len v with
  | inl e => gen_raise e
  | inr n =>
      if negb (Nat.eqb n 3) then gen_done
      else
        match v with
        | VList [id; collection; output] =>
            match id, output with
            | VStr ident, VDict _ =>
                match py_iter collection with
                | inl e => gen_raise e
                | inr its =>
                    gen_concat
                      (map (fun iterator => expand output [(ident, iterator)]) its)
                end
            | _, _ => gen_done
            end
        | _ =>
            match py_index v 0 with
            | inl e => gen_raise e
            | inr _ => gen_done
            end
        end
  end.

(** [_expand_foreach(instance, values)], run to its end.  The key rewriting
    stands before the [try]; the [except ValueError: pass] around the rest of
    the loop body keeps what was yielded and goes on with the next entry. *)
Fixpoint _expand_foreach (instance : value) (values : list (string * value))
  {struct instance} : gen (string * value) :=
  match instance with
  | VDict entries =>
      (fix items (entries : list (string * value)) : gen (string * value) :=
         match entries with
         | [] => gen_done
         | (k, v) :: rest =>
             match rewrite_key (dict_keys values) k with
             | inl e => gen_raise e
             | inr k' =>
                 try_then
                   (if String.prefix "Fn::ForEach::" k'
                    then loop_construct _expand_foreach v
                    else Gen [(k', v)] None)
                   (items rest)
             end
         end) entries
  | _ => gen_raise AttributeError       (* instance.items() *)
  end.

(** [for k, v in ...: table[k] = ctor(v)], stopped by the first exception of
    the constructor. *)
Fixpoint index_items {E : Type} (ctor : value -> result E)
  (items : list (string * value)) (table : list (string * E))
  : list (string * E) * option exn :=
  match items with
  | [] => (table, None)
  | (k, v) :: rest =>
      match ctor v with
      | inl e => (table, Some e)
      | inr x => index_items ctor rest (dict_set k x table)
      end
  end.

(** The three [_init_*] loops over the expansion of a section: the entries
    are consumed as they are yielded, so an exception of the constructor
    comes before a later one of the expansion. *)
Definition index_section {E : Type} (ctor : value -> result E) (section : value)
  (table : list (string * E)) : list (string * E) * option exn :=
  let g := _expand_foreach section [] in
  match index_items ctor (yielded g) table with
  | (table', Some e) => (table', Some e)
  | (table', None) => (table', raised g)
  end.

Definition _init_parameters := index_section Parameter_.__post_init__.
Definition _init_resources := index_section Resource.__post_init__.
Definition _init_conditions :=
  index_section (fun v => mret (Condition.mk v) : result Condition.t).

Definition _init_transforms (transforms : value) : result Transforms.t :=
  match transforms with
  | VStr _ | VList _ => Transforms.__post_init__ transforms
  | _ => Transforms.__post_init__ (VList [])
  end.

(** [except (ValueError, AttributeError): pass] *)
Definition caught (e : exn) : bool :=
  match e with
  | ValueError _ | AttributeError => true
  | _ => false
  end.

(** [try: init(cfn.template.get(name, {})) except (ValueError,
    AttributeError): pass]: the table as the section leaves it, and the
    exception that gets past the handler, if any. *)
Definition try_section {E : Type}
  (init : value -> list (string * E) -> list (string * E) * option exn)
  (template : value) (name : string) (table : list (string * E))
  : list (string * E) * option exn :=
  match py_get_default template name (VDict []) with
  | inl e => (table, if caught e then None else Some e)
  | inr section =>
      let '(table', r) := init section table in
      (table', match r with
               | Some e => if caught e then None else Some e
               | None => None
               end)
  end.

(** [ContextManager(cfn)], on [cfn.template]. *)
Definition __post_init__ (template : value) : result t :=
  let '(ps, r1) := try_section _init_parameters template "Parameters" [] in
  match r1 with
  | Some e => raise e
  | None =>
      let '(rs, r2) := try_section _init_resources template "Resources" [] in
      match r2 with
      | Some e => raise e
      | None =>
          tr_arg ← py_get_default template "Transform" (VList []);
          tr ← _init_transforms tr_arg;
          let '(cs, r3) := try_section _init_conditions template "Conditions" [] in
          match r3 with
          | Some e => raise e
          | None => mret (mk ps rs tr cs)
          end
      end
  end.

(** [Context(...)] as the factory methods call it: the path deque is built
    by the caller, the [value_path] deque and the [ref_values] dict by the
    default factories of the fields. *)
Definition new_context (h : gmap Context.loc Context.obj) (self : t)
  (region : string) (functions : list string) (path : list value)
  (resources : list (string * Resource.t))
  : gmap Context.loc Context.obj * result Context.t :=
  let '(h1, p) := Context.alloc h (Context.ODeque path) in
  let '(h2, vp) := Context.alloc h1 (Context.ODeque []) in
  let '(h3, rv) := Context.alloc h2 (Context.ODict ∅) in
  Context.__post_init__ h3
    (Context.mk_args region functions p vp (parameters self) resources
                     (conditions self) (Some rv) [] false [] (Some (transforms self))).

Definition create_context_for_resources (h : gmap Context.loc Context.obj)
  (self : t) (region : string) : gmap Context.loc Context.obj * result Context.t :=
  new_context h self region
    (if Transforms.has_language_extensions_transform (transforms self)
     then ["Fn::ForEach::[a-zA-Z0-9]+"] else [])
    [VStr "Resources"] (resources self).

(** [FUNCTIONS] is a constant of [cfnlint.helpers] and is passed in. *)
Definition create_context_for_resource_properties (FUNCTIONS : list string)
  (h : gmap Context.loc Context.obj) (self : t) (region resource_name : string)
  : gmap Context.loc Context.obj * result Context.t :=
  new_context h self region FUNCTIONS
    [VStr "Resources"; VStr resource_name; VStr "Properties"] (resources self).

Definition create_context_for_outputs (h : gmap Context.loc Context.obj)
  (self : t) (region : string) : gmap Context.loc Context.obj * result Context.t :=
  new_context h self region ["Fn::ForEach"] [VStr "Outputs"] (resources self).

Definition create_context_for_conditions (h : gmap Context.loc Context.obj)
  (self : t) (region : string) : gmap Context.loc Context.obj * result Context.t :=
  new_context h self region ["Fn::ForEach"] [VStr "Conditions"] [].

End ContextManager.

(** ** _BaseFn.py *)

Module ValidationError.

(** What [BaseFn] reads and writes of a [cfnlint.jsonschema.ValidationError];
    [validator] is [None] until somebody sets it. *)
Record t : Type := mk { message : string; validator : option string; path : list value }.

(** [ValidationError(message)] *)
Definition new (message : string) : t := mk message None [].

End ValidationError.

Module BaseFn.

(** The collaborators of [cfnlint.helpers] and [cfnlint.jsonschema], which
    are not among the sources.  Generators of the validating engine are taken
    run to their end and not to raise.
    - [to_py name] is [ToPy(name).py];
    - [validator_evolve v fs kw] is [v.evolve(context=v.context.evolve(
      functions=fs), function_filter=v.function_filter.evolve(
      add_cfn_lint_keyword=kw))];
    - [descend v instance schema path] is [v.descend(instance, schema, path)];
    - [resolve_value v instance] is [v.resolve_value(instance)];
    - [resolver_resolve v ref] is the schema [v.resolver] resolves [ref] to;
    - [recursion_limit] is the depth of calls the interpreter has left. *)
Class Engine : Type := {
  Validator : Type;
  to_py : string -> string;
  ensure_list : value -> list value;
  is_types_compatible : list string -> list value -> bool;
  validator_evolve : Validator -> list string -> bool -> Validator;
  descend : Validator -> value -> value -> string -> list ValidationError.t;
  resolve_value :
    Validator -> value -> list (value * Validator * option ValidationError.t);
  resolver_resolve : Validator -> value -> value;
  recursion_limit : nat
}.

Record ToPy : Type := mk_ToPy { name : string; py : string }.

Record t : Type := mk { fn : ToPy; types : list string; functions : list string }.

Section BaseFn.

Context {E : Engine}.

(** The calls made to the validating engine, in order. *)
Inductive call : Type :=
| CallDescend (v : Validator) (instance schema : value) (path : string)
| CallResolveValue (v : Validator) (instance : value).

(** A generator of the rule run to its end, with the calls it made. *)
Record run : Type := Run { out : gen ValidationError.t; calls : list call }.

(** [BaseFn(name, types, functions)]; [None] and an empty tuple both end up
    as the empty tuple. *)
Definition __init__ (name : string) (types functions : list string) : t :=
  mk (mk_ToPy name (to_py name)) types functions.

(** [list(instance.keys())[0], instance.get(self.fn.name)] *)
Definition key_value (self : t) (instance : list (string * value))
  : result (string * value) :=
  match dict_keys instance with
  | [] => raise IndexError
  | k :: _ => mret (k, default VNone (dict_get (name (fn self)) instance))
  end.

(** [err.validator in ["ref"]] *)
Definition is_ref_error (err : ValidationError.t) : bool :=
  match ValidationError.validator err with
  | Some v => String.eqb v "ref"
  | None => false
  end.

Definition fix_error (self : t) (err : ValidationError.t) : ValidationError.t :=
  if is_ref_error err then err
  else ValidationError.mk (ValidationError.message err) (Some (py (fn self)))
                          (ValidationError.path err).

Definition fix_errors (self : t) (errs : list ValidationError.t)
  : list ValidationError.t :=
  map (fix_error self) errs.

Definition schema (self : t) (validator : Validator) (instance : value) : value :=
  VDict [("type", VList [VStr "string"])].

Definition validator (self : t) (validator : Validator) : Validator :=
  validator_evolve validator (functions self) false.

(** The state of the loop of [resolve]: the error remembered and the value of
    the triple visited last ([value] is unbound before the first triple and
    read only once an error was remembered). *)
Record loop_state : Type := Loop { return_err : option ValidationError.t; value_ : value }.

(** The [for] loop of [resolve] over the triples that are left: what it
    yields, the [descend] calls it makes, and the state it ends in, [None]
    when it left through [return]. *)
Fixpoint resolve_loop (self : t) (s : value) (key : string)
  (triples : list (value * Validator * option ValidationError.t))
  (st : loop_state)
  : list ValidationError.t * list call * option loop_state :=
  match triples with
  | [] => ([], [], Some st)
  | (value, v, resolve_err) :: rest =>
      match resolve_err with
      | Some e =>
          let '(ys, cs, fin) := resolve_loop self s key rest (Loop (return_err st) value) in
          (e :: ys, cs, fin)
      | None =>
          match fix_errors self (descend v value s key) with
          | [] => ([], [CallDescend v value s key], None)
          | e0 :: _ =>
              let '(ys, cs, fin) := resolve_loop self s key rest (Loop (Some e0) value) in
              (ys, CallDescend v value s key :: cs, fin)
          end
      end
  end.

(** The message of the remembered error as [resolve] rewrites it. *)
Definition resolved_message (self : t) (message : string) (value : Py.value)
  (instance : list (string * Py.value)) : string :=
  replace message (repr value) (repr (VDict instance))
  +:+ " when " +:+ repr_str (name (fn self)) +:+ " is resolved".

Definition resolve (self : t) (validator : Validator) (s : value)
  (instance : list (string * value)) (schema : value) : run :=
  match key_value self instance with
  | inl e => Run (gen_raise e) []
  | inr (key, _) =>
      let '(ys, cs, fin) :=
        resolve_loop self s key (resolve_value validator (VDict instance))
                     (Loop None VNone) in
      let last :=
        match fin with
        | Some (Loop (Some err) value) =>
            [ValidationError.mk
               (resolved_message self (ValidationError.message err) value instance)
               (ValidationError.validator err) (ValidationError.path err)]
        | _ => []
        end in
      Run (Gen (ys ++ last) None) (CallResolveValue validator (VDict instance) :: cs)
  end.

Definition is_str (s : string) (v : value) : bool :=
  match v with
  | VStr x => String.eqb x s
  | _ => false
  end.

(** [k in schema] followed by [schema[k]] when the schema is not a mapping:
    strings and lists support [in] but not the subscript. *)
Definition has_key (k : string) (schema : value) : result bool :=
  match schema with
  | VDict d => mret (match dict_get k d with Some _ => true | None => false end)
  | VStr s => mret (substring_of k s)
  | VList l => mret (existsb (is_str k) l)
  | _ => raise TypeError
  end.

Definition subscript (schema : value) (k : string) : result value :=
  match schema with
  | VDict d => match dict_get k d with Some x => mret x | None => raise KeyError end
  | _ => raise TypeError
  end.

Definition _resolve_ref (validator : Validator) (schema : value) : result value :=
  ref ← subscript schema "$ref";
  mret (resolver_resolve validator ref).

(** [resolve_type], with the depth of recursion the interpreter allows. *)
Fixpoint resolve_type (depth : nat) (self : t) (validator : Validator) (schema : value)
  : result (list value) :=
  has_type ← has_key "type" schema;
  if has_type : bool then ty ← subscript schema "type"; mret (ensure_list ty)
  else
    has_ref ← has_key "$ref" schema;
    if has_ref : bool then
      resolved ← _resolve_ref validator schema;
      match depth with
      | O => raise RecursionError
      | S depth' => resolve_type depth' self validator resolved
      end
    else mret [].

Definition validate_fn_output_types (self : t) (validator : Validator) (s : value)
  (instance : list (string * value)) : gen ValidationError.t :=
  match resolve_type recursion_limit self validator s with
  | inl e => gen_raise e
  | inr tS =>
      match tS with
      | [] => gen_done
      | _ :: _ =>
          if is_types_compatible (types self) tS then gen_done
          else
            let reprs := join ", " (map repr tS) in
            Gen [ValidationError.new
                   (repr (VDict instance) +:+ " is not of type " +:+ reprs)] None
      end
  end.

Definition validate (self : t) (validator_ : Validator) (s : value)
  (instance : list (string * value)) (schema_ : value) : run :=
  let types_run := validate_fn_output_types self validator_ s instance in
  match raised types_run with
  | Some e => Run (gen_raise e) []
  | None =>
      match key_value self instance with
      | inl e => Run (gen_raise e) []
      | inr (key, value) =>
          let v := validator self validator_ in
          let sch := schema self validator_ (VDict instance) in
          let errs := (fix_errors self (yielded types_run)
                       ++ fix_errors self (descend v value sch key))%list in
          match errs with
          | _ :: _ => Run (Gen errs None) [CallDescend v value sch key]
          | [] =>
              let r := resolve self validator_ s instance schema_ in
              Run (out r) (CallDescend v value sch key :: calls r)
          end
      end
  end.

End BaseFn.

End BaseFn.

(** * Vocabulary of the statements and examples *)

Local Open Scope list_scope.

(** The template fragment of the specification:
    [{"Fn::ForEach::Loop": ["Id", ["A", "B"], {"Resource${Id}": {"Type": "X"}}]}]. *)
Definition foreach_loop : value :=
  VDict [("Fn::ForEach::Loop",
          VList [VStr "Id"; VList [VStr "A"; VStr "B"];
                 VDict [("Resource${Id}", VDict [("Type", VStr "X")])]])].

(** [isinstance(v, dict)] *)
Definition is_mapping (v : value) : bool :=
  match v with
  | VDict _ => true
  | _ => false
  end.

(** A context to run the examples in: the manager of a template with one
    parameter, and the context it creates for the [Resources] section in an
    empty store. *)
Definition example_template : value :=
  VDict [("Parameters",
          VDict [("Env", VDict [("Type", VStr "String"); ("Default", VStr "dev");
                                ("AllowedValues", VList [VStr "dev"; VStr "prod"])])])].

Definition example_manager : ContextManager.t :=
  ContextManager.mk
    [("Env", Parameter_.mk "String" (VStr "dev") (VList [VStr "dev"; VStr "prod"]) VNone)]
    [] (Transforms.mk []) [].

Definition example_store : gmap Context.loc Context.obj :=
  fst (ContextManager.create_context_for_resources ∅ example_manager "us-east-1").

Definition example_context : Context.t :=
  Context.mk "us-east-1" [] 1%positive 2%positive
             (ContextManager.parameters example_manager) [] [] 3%positive
             [] false [] (Transforms.mk []).

(** [evolve(region=region)] *)
Definition region_only (region : string) : Context.kwargs :=
  Context.mk_kwargs (Some region) None None None None None None None None None None None.

Section resolution_vocabulary.

Context {E : BaseFn.Engine}.

Local Abbreviation triple := (value * BaseFn.Validator * option ValidationError.t)%type.

(** A triple re-validates cleanly: it carries no resolution error and
    [descend] on its value yields nothing. *)
Definition clean (s : value) (key : string) (t : triple) : bool :=
  match t with
  | (value, v, None) =>
      match BaseFn.descend v value s key with
      | [] => true
      | _ :: _ => false
      end
  | (_, _, Some _) => false
  end.

(** The resolution errors the triples carry, in order. *)
Definition carried (ts : list triple) : list ValidationError.t :=
  omap (fun t : triple => t.2) ts.

(** The [descend] calls for the triples that carry no resolution error. *)
Definition tried (s : value) (key : string) (ts : list triple) : list BaseFn.call :=
  omap (fun t : triple =>
          match t with
          | (value, v, None) => Some (BaseFn.CallDescend v value s key)
          | (_, _, Some _) => None
          end) ts.

(** The state of the loop after one triple that does not return. *)
Definition remember (self : BaseFn.t) (s : value) (key : string)
  (st : BaseFn.loop_state) (t : triple) : BaseFn.loop_state :=
  match t with
  | (value, v, Some _) => BaseFn.Loop (BaseFn.return_err st) value
  | (value, v, None) =>
      BaseFn.Loop (head (BaseFn.fix_errors self (BaseFn.descend v value s key))) value
  end.

(** The error [resolve] yields at the end: the remembered one with its
    message rewritten. *)
Definition resolved_error (self : BaseFn.t) (err : ValidationError.t)
  (value : Py.value) (instance : list (string * Py.value)) : ValidationError.t :=
  ValidationError.mk
    (BaseFn.resolved_message self (ValidationError.message err) value instance)
    (ValidationError.validator err) (ValidationError.path err).

End resolution_vocabulary.

(** A small engine to run the rule in.  Values are checked against the
    [type] keyword only; a [Ref] to [Count] resolves to a text and then a
    number, a [Ref] to [Env] to two texts. *)

Definition json_type (v : value) : string :=
  match v with
  | VNone => "null"
  | VBool _ => "boolean"
  | VInt _ => "integer"
  | VStr _ => "string"
  | VList _ => "array"
  | VDict _ => "object"
  end.

Definition example_ensure_list (v : value) : list value :=
  match v with
  | VList l => l
  | _ => [v]
  end.

Definition example_descend (validator : unit) (instance schema : value)
  (path : string) : list ValidationError.t :=
  match schema with
  | VDict d =>
      match dict_get "type" d with
      | Some ty =>
          if existsb (BaseFn.is_str (json_type instance)) (example_ensure_list ty)
          then []
          else [ValidationError.mk
                  (repr instance +:+ " is not of type "
                   +:+ join ", " (map repr (example_ensure_list ty)))
                  (Some "type") [VStr path]]
      | None => []
      end
  | _ => []
  end.

Definition example_resolve_value (validator : unit) (instance : value)
  : list (value * unit * option ValidationError.t) :=
  match instance with
  | VDict d =>
      match dict_get "Ref" d with
      | Some (VStr name) =>
          if String.eqb name "Count" then [(VStr "many", tt, None); (VInt 3, tt, None)]
          else if String.eqb name "Env" then [(VStr "dev", tt, None); (VStr "prod", tt, None)]
          else []
      | _ => []
      end
  | _ => []
  end.

Definition example_engine : BaseFn.Engine :=
  {| BaseFn.Validator := unit;
     BaseFn.to_py := fun name => name;
     BaseFn.ensure_list := example_ensure_list;
     BaseFn.is_types_compatible :=
       fun types tS => existsb (fun t => existsb (BaseFn.is_str t) tS) types;
     BaseFn.validator_evolve := fun v _ _ => v;
     BaseFn.descend := example_descend;
     BaseFn.resolve_value := example_resolve_value;
     BaseFn.resolver_resolve := fun _ _ => VDict [];
     BaseFn.recursion_limit := 1000 |}.

Definition ref_rule : BaseFn.t :=
  BaseFn.__init__ (E := example_engine) "Ref" ["string"; "integer"] [].

Definition sub_rule : BaseFn.t :=
  BaseFn.__init__ (E := example_engine) "Fn::Sub" ["string"] ["Ref"].

Definition integer_schema : value := VDict [("type", VStr "integer")].
Definition string_schema : value := VDict [("type", VStr "string")].

Definition stale_store : gmap Context.loc Context.obj :=
  {[ 1%positive := Context.ODeque [VStr "Outputs"];
     2%positive := Context.ODeque [];
     3%positive := Context.ODict {[ "AWS::Region" := VStr "stale"; "Env" := VList [VStr "dev"] ]} ]}.

Definition stale_args : Context.init_args :=
  Context.mk_args "eu-west-1" ["Fn::ForEach"] 1%positive 2%positive [] [] []
                  (Some 3%positive) [] false [] (Some (Transforms.mk [])).

Definition override_kwargs : Context.kwargs :=
  Context.mk_kwargs None None None None None None None
    (Some (Some {[ "AWS::Region" := VStr "mars"; "Item" := VList [VStr "a"] ]}))
    None None None None.

Definition path_only (segment : value) : Context.kwargs :=
  Context.mk_kwargs None None (Some segment) None None None None None None None None None.

Definition ref_values_none : Context.kwargs :=
  Context.mk_kwargs None None None None None None None (Some None) None None None None.

Definition bound_store : gmap Context.loc Context.obj :=
  {[ 3%positive := Context.ODict {[ "Env" := VList [VStr "qa"] ]} ]}.

Definition is_string (v : value) : bool :=
  match v with
  | VStr _ => true
  | _ => false
  end.

(** The facts that make a context the root context of a section: it is
    returned, holds the tables of the manager (with [resources] as given) and
    the region, its path holds [path], its functions are [functions], its
    mapping holds the pseudo parameters of the region and nothing else, and
    the objects of the store [h] are untouched. *)
Definition root_context (h : gmap Context.loc Context.obj) (self : ContextManager.t)
  (region : string) (path : list value) (functions : list string)
  (resources : list (string * Resource.t))
  (r : gmap Context.loc Context.obj * result Context.t) : Prop :=
  exists c : Context.t,
    snd r = inr c /\
    Context.region c = region /\
    Context.functions c = functions /\
    Context.parameters c = ContextManager.parameters self /\
    Context.resources c = resources /\
    Context.conditions c = ContextManager.conditions self /\
    Context.transforms c = ContextManager.transforms self /\
    Context.resolved_value c = false /\
    fst r !! Context.path c = Some (Context.ODeque path) /\
    fst r !! Context.value_path c = Some (Context.ODeque []) /\
    fst r !! Context.ref_values c
      = Some (Context.ODict (Context.set_pseudo region ∅)) /\
    h !! Context.path c = None /\ h !! Context.ref_values c = None /\
    forall l o, h !! l = Some o -> fst r !! l = Some o.

Definition constructible {E : Type} (ctor : value -> result E) (kv : string * value)
  : bool :=
  match ctor kv.2 with
  | inr _ => true
  | inl _ => false
  end.

Definition plain_key (kv : string * value) : bool :=
  negb (String.prefix "Fn::ForEach::" kv.1).

Definition parameters_with_gap : list (string * value) :=
  [("Env", VDict [("Type", VStr "String")]);
   ("Broken", VDict [("Default", VInt 1)]);
   ("Late", VDict [("Type", VStr "Number")])].

Definition two_resources : list (string * value) :=
  [("Bucket", VDict [("Type", VStr "AWS::S3::Bucket")]);
   ("Topic", VDict [("Type", VStr "AWS::SNS::Topic")])].

Definition template_with_list_sections : list (string * value) :=
  [("Parameters", VList [VStr "Env"]);
   ("Resources", VDict [("Bucket", VDict [("Type", VStr "AWS::S3::Bucket")])]);
   ("Conditions", VNone)].

Section value_induction.

Variable P : value -> Prop.
Hypothesis HNone : P VNone.
Hypothesis HBool : forall b, P (VBool b).
Hypothesis HInt : forall n, P (VInt n).
Hypothesis HStr : forall s, P (VStr s).
Hypothesis HList : forall l, Forall P l -> P (VList l).
Hypothesis HDict : forall d, Forall (fun kv : string * value => P kv.2) d -> P (VDict d).

(** Induction over a template value and the values inside it. *)
Fixpoint value_nested_ind (v : value) : P v :=
  match v with
  | VNone => HNone
  | VBool b => HBool b
  | VInt n => HInt n
  | VStr s => HStr s
  | VList l =>
      HList l ((fix items (l : list value) : Forall P l :=
                  match l with
                  | [] => @List.Forall_nil value P
                  | x :: l' => @List.Forall_cons value P x l' (value_nested_ind x) (items l')
                  end) l)
  | VDict d =>
      HDict d ((fix entries (d : list (string * value))
                  : Forall (fun kv : string * value => P kv.2) d :=
                  match d with
                  | [] => @List.Forall_nil (string * value) _
                  | kv :: d' =>
                      @List.Forall_cons (string * value) _ kv d' (value_nested_ind kv.2) (entries d')
                  end) d)
  end.

End value_induction.

(** The two facts about the expansion of a value, for every binding. *)
Definition expands_well (v : value) : Prop :=
  forall d, v = VDict d ->
  forall values,
    (forall kv, kv ∈ yielded (ContextManager._expand_foreach (VDict d) values) ->
       String.prefix "Fn::ForEach::" kv.1 = false) /\
    raised (ContextManager._expand_foreach (VDict d) values) <> Some AttributeError.

(** A value under a loop key that the expansion passes over without a word:
    a string, a list that is not of the form [[str, _, dict]], a mapping
    that does not have three entries. *)
Definition passed_over (v : value) : bool :=
  match v with
  | VStr _ => true
  | VList [VStr _; _; VDict _] => false
  | VList _ => true
  | VDict d => negb (Nat.eqb (length d) 3)
  | _ => false
  end.

(** An engine whose [$ref]s all resolve to one schema that is itself a
    [$ref], and whose one candidate for any instance is followed by a triple
    that carries a resolution error. *)
Definition looping_schema : value := VDict [("$ref", VStr "#/definitions/Loop")].

Definition unresolved_error : ValidationError.t :=
  ValidationError.mk "'Gone' is not a parameter" (Some "ref") [].

Definition looping_engine : BaseFn.Engine :=
  {| BaseFn.Validator := unit;
     BaseFn.to_py := fun name => name;
     BaseFn.ensure_list := example_ensure_list;
     BaseFn.is_types_compatible :=
       fun types tS => existsb (fun t => existsb (BaseFn.is_str t) tS) types;
     BaseFn.validator_evolve := fun v _ _ => v;
     BaseFn.descend := example_descend;
     BaseFn.resolve_value :=
       fun _ _ => [(VStr "dev", tt, None); (VStr "gone", tt, Some unresolved_error)];
     BaseFn.resolver_resolve := fun _ _ => looping_schema;
     BaseFn.recursion_limit := 1000 |}.

Section rule_vocabulary.

Context {E : BaseFn.Engine}.

(** The identity an error has once [fix_errors] has seen it. *)
Definition relabelled (self : BaseFn.t) (err : ValidationError.t) : Prop :=
  ValidationError.validator err = Some (BaseFn.py (BaseFn.fn self))
  \/ ValidationError.validator err = Some "ref".

End rule_vocabulary.

(** * Properties *)

(** ** Pseudo parameters *)

Lemma region_in_spec (region a b : string) :
  region_in region a b = true <-> region = a \/ region = b.
Proof.
  unfold region_in. rewrite orb_true_iff, !String.eqb_eq. reflexivity.
Qed.

Lemma region_in_false (region a b : string) :
  region_in region a b = false <-> ~ (region = a \/ region = b).
Proof.
  rewrite <- region_in_spec. destruct (region_in region a b); split; intros H;
    try discriminate; try reflexivity; congruence.
Qed.

Lemma _get_pseudo_value_partition (region : string) :
  _get_pseudo_value "AWS::Partition" region = VStr (_get_partition region).
Proof. reflexivity. Qed.

Lemma _get_pseudo_value_urlsuffix (region : string) :
  _get_pseudo_value "AWS::URLSuffix" region =
  VStr (if region_in region "cn-north-1" "cn-northwest-1"
        then "amazonaws.com.cn" else "amazonaws.com").
Proof.
  change (_get_pseudo_value "AWS::URLSuffix" region)
    with (if region_in region "cn-north-1" "cn-northwest-1"
          then VStr "amazonaws.com.cn" else VStr "amazonaws.com").
  destruct (region_in region "cn-north-1" "cn-northwest-1"); reflexivity.
Qed.

(** The two China regions are not GovCloud regions. *)
Lemma china_not_gov (region : string) :
  region_in region "us-gov-east-1" "us-gov-west-1" = true ->
  region_in region "cn-north-1" "cn-northwest-1" = false.
Proof.
  rewrite region_in_spec. intros [-> | ->]; reflexivity.
Qed.

(** C8: for every region, [AWS::Partition] resolves to [aws-cn] exactly for
    [cn-north-1] and [cn-northwest-1], to [aws-us-gov] exactly for
    [us-gov-east-1] and [us-gov-west-1], and to [aws] exactly for every other
    region; [AWS::URLSuffix] resolves to [amazonaws.com.cn] exactly for the
    two China regions and to [amazonaws.com] exactly for every other one. *)
Theorem pseudo_partition_and_urlsuffix (region : string) :
  (_get_pseudo_value "AWS::Partition" region = VStr "aws-cn"
     <-> (region = "cn-north-1" \/ region = "cn-northwest-1")) /\
  (_get_pseudo_value "AWS::Partition" region = VStr "aws-us-gov"
     <-> (region = "us-gov-east-1" \/ region = "us-gov-west-1")) /\
  (_get_pseudo_value "AWS::Partition" region = VStr "aws"
     <-> ~ (region = "cn-north-1" \/ region = "cn-northwest-1")
         /\ ~ (region = "us-gov-east-1" \/ region = "us-gov-west-1")) /\
  (_get_pseudo_value "AWS::URLSuffix" region = VStr "amazonaws.com.cn"
     <-> (region = "cn-north-1" \/ region = "cn-northwest-1")) /\
  (_get_pseudo_value "AWS::URLSuffix" region = VStr "amazonaws.com"
     <-> ~ (region = "cn-north-1" \/ region = "cn-northwest-1")).
Proof.
  rewrite _get_pseudo_value_partition, _get_pseudo_value_urlsuffix.
  unfold _get_partition.
  pose proof (china_not_gov region) as Hdisj.
  rewrite <- !region_in_false, <- !region_in_spec.
  destruct (region_in region "us-gov-east-1" "us-gov-west-1");
    destruct (region_in region "cn-north-1" "cn-northwest-1");
    try (specialize (Hdisj eq_refl); discriminate Hdisj);
    repeat split; intros; try discriminate; try reflexivity;
    repeat match goal with H : _ /\ _ |- _ => destruct H end; try discriminate.
Qed.

(** ** Candidate values of a parameter *)

(** A default that tests true comes first, the allowed values follow in the
    order of the list. *)
Lemma parameter_ref_truthy_default {C : Type} (p : Parameter_.t) (context : C)
  (allowed : list value) :
  truthy (Parameter_.default p) = true ->
  Parameter_.allowed_values p = VList allowed ->
  Parameter_.ref p context = Gen (Parameter_.default p :: allowed) None.
Proof.
  intros Hd Ha. unfold Parameter_.ref. rewrite Hd, Ha.
  destruct allowed; reflexivity.
Qed.

(** Neither a default nor allowed values: nothing is produced. *)
Lemma parameter_ref_nothing {C : Type} (p : Parameter_.t) (context : C) :
  Parameter_.default p = VNone ->
  Parameter_.allowed_values p = VNone ->
  Parameter_.ref p context = gen_done.
Proof.
  intros Hd Ha. unfold Parameter_.ref. rewrite Hd, Ha. reflexivity.
Qed.

(** Whatever the default, one that tests false is not produced. *)
Lemma parameter_ref_falsy_default {C : Type} (p : Parameter_.t) (context : C)
  (allowed : list value) :
  truthy (Parameter_.default p) = false ->
  Parameter_.allowed_values p = VList allowed ->
  Parameter_.ref p context = Gen allowed None.
Proof.
  intros Hd Ha. unfold Parameter_.ref. rewrite Hd, Ha.
  destruct allowed; reflexivity.
Qed.

(** C9: a parameter declared with [Default: 0] and [AllowedValues: [1, 2]]
    is built with the default 0 present, and its candidate values are 1 and 2
    only: the default is tested for truth, not for presence, and is left
    out. *)
Theorem parameter_ref_drops_zero_default :
  exists p : Parameter_.t,
    Parameter_.__post_init__
      (VDict [("Type", VStr "Number"); ("Default", VInt 0);
              ("AllowedValues", VList [VInt 1; VInt 2])]) = inr p /\
    Parameter_.default p = VInt 0 /\
    Parameter_.ref p tt = Gen [VInt 1; VInt 2] None.
Proof.
  eexists. split; [reflexivity |]. split; reflexivity.
Qed.

(** ** Macro expansion *)

(** One turn of the loop of [_expand_foreach]. *)
Lemma _expand_foreach_cons (k : string) (v : value)
  (rest values : list (string * value)) :
  ContextManager._expand_foreach (VDict ((k, v) :: rest)) values =
  match ContextManager.rewrite_key (dict_keys values) k with
  | inl e => gen_raise e
  | inr k' =>
      ContextManager.try_then
        (if String.prefix "Fn::ForEach::" k'
         then ContextManager.loop_construct ContextManager._expand_foreach v
         else Gen [(k', v)] None)
        (ContextManager._expand_foreach (VDict rest) values)
  end.
Proof. reflexivity. Qed.

(** Entries that are not loop constructs pass through the expansion as they
    are, in order. *)
Lemma expand_foreach_plain (entries : list (string * value)) :
  forallb (fun kv => negb (String.prefix "Fn::ForEach::" kv.1)) entries = true ->
  ContextManager._expand_foreach (VDict entries) [] = Gen entries None.
Proof.
  induction entries as [| [k v] entries IH]; intros Hplain.
  - reflexivity.
  - cbn [forallb fst] in Hplain. apply andb_true_iff in Hplain as [Hk Hrest].
    apply negb_true_iff in Hk.
    rewrite _expand_foreach_cons, (IH Hrest).
    change (ContextManager.rewrite_key (dict_keys []) k) with (inr k : result string).
    cbv beta iota. rewrite Hk. reflexivity.
Qed.

(** The expansion looks at the keys of the bindings only. *)
Lemma expand_foreach_binding_keys (instance : value)
  (values values' : list (string * value)) :
  dict_keys values = dict_keys values' ->
  ContextManager._expand_foreach instance values
  = ContextManager._expand_foreach instance values'.
Proof.
  intros Hkeys. destruct instance as [| | | | | entries]; try reflexivity.
  induction entries as [| [k v] entries IH]; [reflexivity |].
  rewrite !_expand_foreach_cons, IH, Hkeys. reflexivity.
Qed.

(** So the item of the collection a loop is at never reaches the expansion
    of its output: every item gives the same entries. *)
Lemma expand_foreach_ignores_item (output : value) (ident : string)
  (iterator iterator' : value) :
  ContextManager._expand_foreach output [(ident, iterator)]
  = ContextManager._expand_foreach output [(ident, iterator')].
Proof. apply expand_foreach_binding_keys. reflexivity. Qed.

(** The inner loop unpacks the key [Id] of the bindings into [I] and [d], so
    the pattern looks for [${I}] and the key is left as it was. *)
Lemma rewrite_key_unpacks_identifier :
  ContextManager.unpack_pair "Id" = inr ("I", "d") /\
  ContextManager.rewrite_key ["Id"] "Resource${Id}" = inr "Resource${Id}" /\
  ContextManager.rewrite_key ["Id"] "Resource${I}" = inr "Resourced".
Proof. repeat split; reflexivity. Qed.

(** An identifier that is not two characters long cannot be unpacked; the
    handler of the enclosing loop swallows the error and the whole construct
    expands to nothing. *)
Lemma expand_foreach_long_identifier :
  ContextManager._expand_foreach
    (VDict [("Fn::ForEach::Loop",
             VList [VStr "Name"; VList [VStr "A"; VStr "B"];
                    VDict [("Resource${Name}", VDict [("Type", VStr "X")])]])])
    [] = gen_done.
Proof. reflexivity. Qed.

(** C4: expanding the fragment yields the key [Resource${Id}] twice, with
    the loop variable still in it, where the specification has [ResourceA]
    and then [ResourceB]. *)
Theorem expand_foreach_leaves_loop_variable :
  ContextManager._expand_foreach foreach_loop [] =
    Gen [("Resource${Id}", VDict [("Type", VStr "X")]);
         ("Resource${Id}", VDict [("Type", VStr "X")])] None /\
  ContextManager._expand_foreach foreach_loop [] <>
    Gen [("ResourceA", VDict [("Type", VStr "X")]);
         ("ResourceB", VDict [("Type", VStr "X")])] None.
Proof.
  split; [reflexivity | discriminate].
Qed.

(** ** Construction of the ContextManager *)

(** What gets past the handler of a section is neither a [ValueError] nor an
    [AttributeError]. *)
Lemma try_section_escapes {E : Type}
  (init : value -> list (string * E) -> list (string * E) * option exn)
  (template : value) (name : string) (table : list (string * E)) (e : exn) :
  snd (ContextManager.try_section init template name table) = Some e ->
  ContextManager.caught e = false.
Proof.
  unfold ContextManager.try_section.
  destruct (py_get_default template name (VDict [])) as [e0 | section]; simpl.
  - destruct (ContextManager.caught e0) eqn:Hc; intros H; inversion H; subst; exact Hc.
  - destruct (init section table) as [table' [e1 |]]; simpl.
    + destruct (ContextManager.caught e1) eqn:Hc; intros H; inversion H; subst; exact Hc.
    + discriminate.
Qed.

(** A section that is not a mapping has no [items]: nothing is indexed and
    the [AttributeError] stays inside the section. *)
Lemma try_section_not_mapping {E : Type} (ctor : value -> result E)
  (d : list (string * value)) (name : string) (section : value) :
  dict_get name d = Some section ->
  is_mapping section = false ->
  ContextManager.try_section (ContextManager.index_section ctor) (VDict d) name []
  = ([], None).
Proof.
  intros Hget Hm. unfold ContextManager.try_section, py_get_default.
  rewrite Hget. simpl.
  destruct section; try discriminate; reflexivity.
Qed.

(** A [Resources] section that is not a mapping: whenever construction
    returns, [resources] is empty and [parameters] and [conditions] are what
    their own sections give. *)
Lemma construction_resources_not_mapping (d : list (string * value))
  (section : value) (cm : ContextManager.t) :
  dict_get "Resources" d = Some section ->
  is_mapping section = false ->
  ContextManager.__post_init__ (VDict d) = inr cm ->
  ContextManager.resources cm = [] /\
  ContextManager.parameters cm =
    fst (ContextManager.try_section ContextManager._init_parameters (VDict d)
           "Parameters" []) /\
  ContextManager.conditions cm =
    fst (ContextManager.try_section ContextManager._init_conditions (VDict d)
           "Conditions" []).
Proof.
  intros Hget Hm. unfold ContextManager.__post_init__.
  unfold ContextManager._init_resources at 1.
  rewrite (try_section_not_mapping _ d "Resources" section Hget Hm).
  destruct (ContextManager.try_section ContextManager._init_parameters _ _ _)
    as [ps [e1 |]]; [discriminate |].
  destruct (py_get_default (VDict d) "Transform" (VList [])) as [e | tr_arg];
    [discriminate |].
  simpl. destruct (ContextManager._init_transforms tr_arg) as [e | tr];
    [discriminate |].
  simpl.
  destruct (ContextManager.try_section ContextManager._init_conditions _ _ _)
    as [cs [e3 |]]; [discriminate |].
  intros H. inversion H; subst. simpl. auto.
Qed.

(** A loop construct whose value has no length: the [TypeError] of [len] is
    not among the exceptions the section handler names. *)
Lemma construction_raises_on_foreach_without_length :
  ContextManager.__post_init__
    (VDict [("Resources", VDict [("Fn::ForEach::Loop", VInt 5)])]) = inl TypeError.
Proof. reflexivity. Qed.

(** C6: the [Transform] section is indexed outside any handler.  With a
    well-formed [Parameters] section and a [Transform] list that holds a
    number, construction raises the [ValueError] of [Transforms] instead of
    returning a manager with the parameters indexed. *)
Theorem construction_raises_on_transform_entry :
  ContextManager.__post_init__
    (VDict [("Parameters", VDict [("Env", VDict [("Type", VStr "String")])]);
            ("Transform", VList [VStr "AWS::LanguageExtensions"; VInt 1])])
  = inl (ValueError "Transform must be a string").
Proof. reflexivity. Qed.

(** ** Context.fn_value *)

Lemma example_manager_built :
  ContextManager.__post_init__ example_template = inr example_manager.
Proof. reflexivity. Qed.

Lemma example_context_created :
  ContextManager.create_context_for_resources ∅ example_manager "us-east-1"
  = (example_store, inr example_context).
Proof. vm_compute. reflexivity. Qed.

Lemma example_ref_values :
  example_store !! Context.ref_values example_context
  = Some (Context.ODict (Context.set_pseudo "us-east-1" ∅)).
Proof. vm_compute. reflexivity. Qed.

Lemma gen_seq_raise_raised {A : Type} (g : gen A) (e : exn) :
  exists e', raised (gen_seq g (gen_raise e)) = Some e'.
Proof.
  unfold gen_seq. destruct (raised g) as [e0 |] eqn:Hr.
  - exists e0. exact Hr.
  - exists e. reflexivity.
Qed.

Lemma fn_value_other_key (find : Context.t -> value -> gen value)
  (h : gmap Context.loc Context.obj) (self : Context.t) (k : string) (v : value) :
  k <> "Ref" ->
  Context.fn_value find h self [(k, v)] =
  gen_seq (if String.eqb k "Fn::FindInMap" then find self v else gen_done)
          (gen_raise (ValueError ("Unsupported value " +:+ repr v))).
Proof.
  intros Hk. unfold Context.fn_value.
  destruct (String.eqb k "Ref") eqn:Heq; [| reflexivity].
  apply String.eqb_eq in Heq. contradiction.
Qed.

(** C10: for any behaviour of the delegate [fn_find_in_map], consuming
    [fn_value] of a single-key [Fn::FindInMap] mapping ends in an exception;
    when the delegate itself does not raise, what it yielded is passed on and
    the run falls through into the [ValueError] for unsupported values; and a
    single-key mapping on which [fn_value] ends without an exception has the
    key [Ref]. *)
Theorem fn_value_find_in_map_always_raises
  (find : Context.t -> value -> gen value)
  (h : gmap Context.loc Context.obj) (self : Context.t) :
  (forall v, exists e,
      raised (Context.fn_value find h self [("Fn::FindInMap", v)]) = Some e) /\
  (forall v, raised (find self v) = None ->
      Context.fn_value find h self [("Fn::FindInMap", v)]
      = Gen (yielded (find self v))
            (Some (ValueError ("Unsupported value " +:+ repr v)))) /\
  (forall k v, raised (Context.fn_value find h self [(k, v)]) = None -> k = "Ref").
Proof.
  split; [| split].
  - intros v. rewrite fn_value_other_key by discriminate.
    apply gen_seq_raise_raised.
  - intros v Hr. rewrite fn_value_other_key by discriminate.
    simpl. unfold gen_seq. rewrite Hr. simpl. rewrite app_nil_r. reflexivity.
  - intros k v Hr. destruct (String.eqb k "Ref") eqn:Heq.
    + apply String.eqb_eq. exact Heq.
    + assert (Hk : k <> "Ref") by (intros ->; discriminate Heq).
      rewrite (fn_value_other_key find h self k v Hk) in Hr.
      destruct (gen_seq_raise_raised
                  (if String.eqb k "Fn::FindInMap" then find self v else gen_done)
                  (ValueError ("Unsupported value " +:+ repr v))) as [e He].
      rewrite He in Hr. discriminate Hr.
Qed.

(** The theorem at the example context, with the delegate the sources have
    (none): a [Ref] to a pseudo parameter ends without an exception, an
    [Fn::FindInMap] does not. *)
Lemma fn_value_find_in_map_always_raises_witness :
  raised (Context.fn_value Context.fn_find_in_map_absent example_store example_context
            [("Ref", VStr "AWS::Region")]) = None /\
  exists e,
    raised (Context.fn_value Context.fn_find_in_map_absent example_store example_context
              [("Fn::FindInMap", VList [VStr "Map"; VStr "Key"; VStr "Sub"])])
    = Some e.
Proof.
  split.
  - vm_compute. reflexivity.
  - exact (proj1 (fn_value_find_in_map_always_raises
                    Context.fn_find_in_map_absent example_store example_context)
                 (VList [VStr "Map"; VStr "Key"; VStr "Sub"])).
Defined.

(** C5, as stated, fails: the [ValueError] for an unsupported key carries the
    [repr] of the value stored under the key, and the key does not occur in
    it.  Here the mapping is [{"Fn::Join": ["a"]}] and the message is
    [Unsupported value ['a']]. *)
Lemma fn_value_error_does_not_name_key :
  ~ (forall (find : Context.t -> value -> gen value)
            (h : gmap Context.loc Context.obj) (self : Context.t)
            (k : string) (v : value),
        k <> "Ref" -> k <> "Fn::FindInMap" ->
        exists msg,
          raised (Context.fn_value find h self [(k, v)]) = Some (ValueError msg) /\
          substring_of k msg = true).
Proof.
  intros H.
  destruct (H Context.fn_find_in_map_absent example_store example_context
              "Fn::Join" (VList [VStr "a"])) as (msg & Hr & Hsub);
    [discriminate | discriminate |].
  vm_compute in Hr. inversion Hr; subst msg.
  vm_compute in Hsub. discriminate Hsub.
Qed.

(** C5, amended: [fn_value] raises a [ValueError] listing the keys when the
    mapping does not have exactly one key; for [{"Ref": name}] with [name] in
    neither [ref_values] nor [parameters] it yields nothing and raises
    nothing; for a single key other than [Ref] and [Fn::FindInMap] it raises
    a [ValueError] whose message is [Unsupported value] followed by the
    [repr] of the value stored under the key. *)
Theorem fn_value_shape_and_value_errors
  (find : Context.t -> value -> gen value)
  (h : gmap Context.loc Context.obj) (self : Context.t) :
  (forall instance, length instance <> 1 ->
      Context.fn_value find h self instance
      = gen_raise (ValueError ("Fn::Value can only have one key, got: "
                               +:+ repr (VList (map VStr (dict_keys instance)))))) /\
  (forall name m,
      h !! Context.ref_values self = Some (Context.ODict m) ->
      m !! name = None ->
      dict_get name (Context.parameters self) = None ->
      Context.fn_value find h self [("Ref", VStr name)] = gen_done) /\
  (forall k v, k <> "Ref" -> k <> "Fn::FindInMap" ->
      Context.fn_value find h self [(k, v)]
      = gen_raise (ValueError ("Unsupported value " +:+ repr v))).
Proof.
  split; [| split].
  - intros instance Hlen. unfold Context.fn_value.
    destruct instance as [| [k v] [| kv rest]]; try reflexivity.
    simpl in Hlen. congruence.
  - intros name m Hh Hm Hp. unfold Context.fn_value. simpl.
    rewrite Hh, Hm, Hp. reflexivity.
  - intros k v Hk1 Hk2. rewrite fn_value_other_key by exact Hk1.
    destruct (String.eqb k "Fn::FindInMap") eqn:Heq.
    + apply String.eqb_eq in Heq. contradiction.
    + reflexivity.
Qed.

(** The amended statement at the example context: two keys, an unknown
    reference, and [Fn::Join]. *)
Lemma fn_value_shape_and_value_errors_witness :
  Context.fn_value Context.fn_find_in_map_absent example_store example_context
    [("Ref", VStr "X"); ("Fn::FindInMap", VStr "Y")]
  = gen_raise (ValueError "Fn::Value can only have one key, got: ['Ref', 'Fn::FindInMap']") /\
  Context.fn_value Context.fn_find_in_map_absent example_store example_context
    [("Ref", VStr "X")] = gen_done /\
  Context.fn_value Context.fn_find_in_map_absent example_store example_context
    [("Fn::Join", VList [VStr "a"])]
  = gen_raise (ValueError "Unsupported value ['a']").
Proof.
  destruct (fn_value_shape_and_value_errors
              Context.fn_find_in_map_absent example_store example_context)
    as (Hshape & Hunknown & Hother).
  split; [| split].
  - apply (Hshape [("Ref", VStr "X"); ("Fn::FindInMap", VStr "Y")]).
    simpl. lia.
  - apply (Hunknown "X" (Context.set_pseudo "us-east-1" ∅)).
    + exact example_ref_values.
    + vm_compute. reflexivity.
    + reflexivity.
  - apply (Hother "Fn::Join" (VList [VStr "a"])); discriminate.
Defined.

(** ** Context.evolve *)

(** Allocation hands out an address the store does not hold, and leaves the
    objects that are there alone. *)
Lemma alloc_fresh (h : gmap Context.loc Context.obj) (o : Context.obj) :
  h !! snd (Context.alloc h o) = None.
Proof.
  unfold Context.alloc. simpl. apply not_elem_of_dom. apply is_fresh.
Qed.

Lemma alloc_lookup (h : gmap Context.loc Context.obj) (o : Context.obj) :
  fst (Context.alloc h o) !! snd (Context.alloc h o) = Some o.
Proof. unfold Context.alloc. simpl. apply lookup_insert_eq. Qed.

Lemma alloc_other (h : gmap Context.loc Context.obj) (o : Context.obj)
  (l : Context.loc) :
  is_Some (h !! l) -> fst (Context.alloc h o) !! l = h !! l.
Proof.
  intros [x Hx]. unfold Context.alloc. simpl.
  apply lookup_insert_ne. intros Heq.
  pose proof (alloc_fresh h o) as Hf. unfold Context.alloc in Hf. simpl in Hf.
  rewrite Heq in Hf. congruence.
Qed.

(** A constructor call that returns was given a mapping and a transform
    registry, and the only cell it writes is that mapping. *)
Lemma post_init_inv (h h' : gmap Context.loc Context.obj) (a : Context.init_args) (c : Context.t) :
  Context.__post_init__ h a = (h', inr c) ->
  exists l m tr,
    Context.a_ref_values a = Some l /\ Context.a_transforms a = Some tr /\
    h !! l = Some (Context.ODict m) /\
    h' = <[l := Context.ODict (Context.set_pseudo (Context.a_region a) m)]> h /\
    c = Context.mk (Context.a_region a) (Context.a_functions a) (Context.a_path a)
          (Context.a_value_path a) (Context.a_parameters a) (Context.a_resources a)
          (Context.a_conditions a) l (Context.a_fn_foreach a)
          (Context.a_resolved_value a) (Context.a_resolved_conditions a) tr.
Proof.
  unfold Context.__post_init__.
  destruct (Context.a_transforms a) as [tr |]; [| intros H; inversion H].
  destruct (Context.a_ref_values a) as [l |]; [| intros H; inversion H].
  destruct (h !! l) as [[items | m] |] eqn:Hl; intros H; inversion H; subst.
  exists l, m, tr. repeat split; auto.
Qed.

(** What a call of [evolve] that returns did to the store. *)
Lemma evolve_inv (h h' : gmap Context.loc Context.obj) (self child : Context.t)
  (kw : Context.kwargs) :
  Context.evolve h self kw = (h', inr child) ->
  exists items m,
    h !! Context.path self = Some (Context.ODeque items) /\
    h !! Context.ref_values self = Some (Context.ODict m) /\
    let a1 := Context.alloc h (Context.ODeque (Context.evolve_path items (Context.kw_path kw))) in
    Context.path child = snd a1 /\
    Context.region child = default (Context.region self) (Context.kw_region kw) /\
    match Context.kw_ref_values kw with
    | Some (Some override) =>
        let a2 := Context.alloc (fst a1) (Context.ODict (override ∪ m)) in
        Context.ref_values child = snd a2 /\
        h' = <[snd a2 := Context.ODict (Context.set_pseudo (Context.region child) (override ∪ m))]> (fst a2)
    | Some None => False
    | None =>
        Context.ref_values child = Context.ref_values self /\
        h' = <[Context.ref_values self :=
                 Context.ODict (Context.set_pseudo (Context.region child) m)]> (fst a1)
    end.
Proof.
  unfold Context.evolve.
  destruct (h !! Context.path self) as [[items | ?] |] eqn:Hp;
    try (intros H; inversion H; fail).
  destruct (h !! Context.ref_values self) as [[? | m] |] eqn:Hr;
    try (intros H; inversion H; fail).
  intros H. exists items, m. split; [reflexivity |]. split; [reflexivity |].
  pose proof (alloc_fresh h (Context.ODeque (Context.evolve_path items (Context.kw_path kw)))) as Hf1.
  pose proof (alloc_other h (Context.ODeque (Context.evolve_path items (Context.kw_path kw)))
                (Context.ref_values self) (ex_intro _ _ Hr)) as Ho1.
  unfold Context.alloc in *. cbn [fst snd] in *. cbv zeta.
  destruct (Context.kw_ref_values kw) as [[override |] |]; cbn in H.
  - apply post_init_inv in H as (l & m' & tr & Hl & Htr & Hm' & -> & ->).
    cbn in Hl. inversion Hl; subst l. cbn.
    rewrite lookup_insert_eq in Hm'. inversion Hm'; subst m'. auto.
  - apply post_init_inv in H as (l & m' & tr & Hl & _). cbn in Hl. discriminate Hl.
  - apply post_init_inv in H as (l & m' & tr & Hl & Htr & Hm' & -> & ->).
    cbn in Hl. inversion Hl; subst l. cbn.
    rewrite Ho1, Hr in Hm'. inversion Hm'; subst m'. auto.
Qed.

(** In a store that holds the parent's containers, [evolve] returns a
    child unless [ref_values] or [transforms] is passed as [None]. *)
Lemma evolve_returns (h : gmap Context.loc Context.obj) (self : Context.t)
  (kw : Context.kwargs) (items : list value) (m : gmap string value) :
  h !! Context.path self = Some (Context.ODeque items) ->
  h !! Context.ref_values self = Some (Context.ODict m) ->
  Context.kw_ref_values kw <> Some None ->
  Context.kw_transforms kw <> Some None ->
  exists h' child, Context.evolve h self kw = (h', inr child).
Proof.
  intros Hp Hr Hkr Hkt. unfold Context.evolve. rewrite Hp, Hr.
  pose proof (alloc_other h (Context.ODeque (Context.evolve_path items (Context.kw_path kw)))
                (Context.ref_values self) (ex_intro _ _ Hr)) as Ho1.
  unfold Context.alloc in *. cbn [fst snd] in *.
  unfold Context.__post_init__.
  destruct (Context.kw_transforms kw) as [[tr |] |]; [| contradiction |];
    (destruct (Context.kw_ref_values kw) as [[override |] |]; [| contradiction |]);
    cbn; rewrite ?lookup_insert_eq, ?Ho1, ?Hr; eauto.
Qed.

(** The path: the child gets a deque of its own, holding the parent's
    segments and the new one after them; the parent's deque is as before. *)
Lemma evolve_path_copied (h h' : gmap Context.loc Context.obj)
  (self child : Context.t) (kw : Context.kwargs) :
  Context.evolve h self kw = (h', inr child) ->
  exists items,
    h !! Context.path self = Some (Context.ODeque items) /\
    h' !! Context.path self = Some (Context.ODeque items) /\
    h !! Context.path child = None /\
    h' !! Context.path child
      = Some (Context.ODeque (Context.evolve_path items (Context.kw_path kw))).
Proof.
  intros H. apply evolve_inv in H as (items & m & Hp & Hr & Hpc & Hreg & Hrv).
  exists items. split; [exact Hp |].
  set (o1 := Context.ODeque (Context.evolve_path items (Context.kw_path kw))) in *.
  pose proof (alloc_fresh h o1) as Hf1.
  pose proof (alloc_lookup h o1) as Hl1.
  pose proof (alloc_other h o1 _ (ex_intro _ _ Hp)) as Hop.
  pose proof (alloc_other h o1 _ (ex_intro _ _ Hr)) as Hor.
  rewrite Hpc. cbv zeta in Hrv.
  destruct (Context.kw_ref_values kw) as [[override |] |]; [| contradiction |].
  - destruct Hrv as [_ ->].
    set (o2 := Context.ODict (override ∪ m)) in *.
    pose proof (alloc_fresh (fst (Context.alloc h o1)) o2) as Hf2.
    pose proof (alloc_other (fst (Context.alloc h o1)) o2 _ (ex_intro _ _ Hl1)) as Ho2.
    assert (Hop2 : fst (Context.alloc (fst (Context.alloc h o1)) o2) !! Context.path self
                   = Some (Context.ODeque items)).
    { rewrite alloc_other; rewrite Hop, Hp; eauto. }
    repeat split.
    + rewrite lookup_insert_ne; [exact Hop2 |].
      intros Heq. rewrite Heq, Hop, Hp in Hf2. discriminate.
    + exact Hf1.
    + rewrite lookup_insert_ne; [rewrite Ho2; exact Hl1 |].
      intros Heq. rewrite Heq, Hl1 in Hf2. discriminate.
  - destruct Hrv as [_ ->]. repeat split.
    + rewrite lookup_insert_ne; [rewrite Hop; exact Hp |]. congruence.
    + exact Hf1.
    + rewrite lookup_insert_ne; [exact Hl1 |]. congruence.
Qed.

(** With a [ref_values] override the child gets a mapping of its own, the
    parent's entries overlaid with the override and then with the pseudo
    parameters of the child's region; the parent's mapping is as before. *)
Lemma evolve_override_copies (h h' : gmap Context.loc Context.obj)
  (self child : Context.t) (kw : Context.kwargs) (override : gmap string value) :
  Context.kw_ref_values kw = Some (Some override) ->
  Context.evolve h self kw = (h', inr child) ->
  exists m,
    h !! Context.ref_values self = Some (Context.ODict m) /\
    h' !! Context.ref_values self = Some (Context.ODict m) /\
    h !! Context.ref_values child = None /\
    h' !! Context.ref_values child
      = Some (Context.ODict (Context.set_pseudo (Context.region child) (override ∪ m))).
Proof.
  intros Hkw H. apply evolve_inv in H as (items & m & Hp & Hr & Hpc & Hreg & Hrv).
  exists m. split; [exact Hr |].
  set (o1 := Context.ODeque (Context.evolve_path items (Context.kw_path kw))) in *.
  pose proof (alloc_other h o1 _ (ex_intro _ _ Hr)) as Hor.
  rewrite Hkw in Hrv. cbv zeta in Hrv. destruct Hrv as [Hc ->].
  set (o2 := Context.ODict (override ∪ m)) in *.
  pose proof (alloc_fresh (fst (Context.alloc h o1)) o2) as Hf2.
  rewrite Hc. repeat split.
  - rewrite lookup_insert_ne.
    + rewrite alloc_other; rewrite Hor, Hr; eauto.
    + intros Heq. rewrite Heq, Hor, Hr in Hf2. discriminate.
  - destruct (h !! snd (Context.alloc (fst (Context.alloc h o1)) o2)) as [x |] eqn:Hx;
      [| reflexivity].
    rewrite alloc_other in Hf2 by eauto. congruence.
  - apply lookup_insert_eq.
Qed.

(** Without a [ref_values] override no copy is made: the child holds the
    address of the parent's mapping, and the constructor writes the pseudo
    parameters of the child's region into it. *)
Lemma evolve_default_shares (h h' : gmap Context.loc Context.obj)
  (self child : Context.t) (kw : Context.kwargs) :
  Context.kw_ref_values kw = None ->
  Context.evolve h self kw = (h', inr child) ->
  Context.ref_values child = Context.ref_values self /\
  exists m,
    h !! Context.ref_values self = Some (Context.ODict m) /\
    h' !! Context.ref_values self
      = Some (Context.ODict (Context.set_pseudo (Context.region child) m)).
Proof.
  intros Hkw H. apply evolve_inv in H as (items & m & Hp & Hr & Hpc & Hreg & Hrv).
  rewrite Hkw in Hrv. destruct Hrv as [Hc ->].
  split; [exact Hc |]. exists m. split; [exact Hr |]. apply lookup_insert_eq.
Qed.

(** C1: [evolve(region="cn-north-1")] on the context the manager creates
    for region [us-east-1] returns a child that holds the parent's own
    [ref_values] mapping, and after the call the parent, whose region still
    is [us-east-1], finds [cn-north-1] under [AWS::Region] where it had
    [us-east-1]: the call has mutated the parent. *)
Theorem evolve_region_rewrites_parent_ref_values :
  exists (h' : gmap Context.loc Context.obj) (child : Context.t)
         (before after : gmap string value),
    Context.evolve example_store example_context (region_only "cn-north-1")
      = (h', inr child) /\
    Context.region example_context = "us-east-1" /\
    Context.ref_values child = Context.ref_values example_context /\
    example_store !! Context.ref_values example_context = Some (Context.ODict before) /\
    before !! "AWS::Region" = Some (VList [VStr "us-east-1"]) /\
    h' !! Context.ref_values example_context = Some (Context.ODict after) /\
    after !! "AWS::Region" = Some (VList [VStr "cn-north-1"]).
Proof.
  eexists _, _, _, _.
  split; [vm_compute; reflexivity |].
  split; [reflexivity |].
  split; [reflexivity |].
  split; [vm_compute; reflexivity |].
  split; [vm_compute; reflexivity |].
  split; vm_compute; reflexivity.
Qed.

(** ** BaseFn: resolution and validation *)

Section resolution.

Context {E : BaseFn.Engine}.

Local Abbreviation triple := (value * BaseFn.Validator * option ValidationError.t)%type.

Lemma fix_errors_nil (self : BaseFn.t) (errs : list ValidationError.t) :
  BaseFn.fix_errors self errs = [] <-> errs = [].
Proof.
  unfold BaseFn.fix_errors. destruct errs; simpl; split; intros H;
    try reflexivity; discriminate H.
Qed.

(** The loop over triples none of which is clean, followed by more. *)
Lemma resolve_loop_app (self : BaseFn.t) (s : value) (key : string)
  (pre rest : list triple) (st : BaseFn.loop_state) :
  forallb (fun t => negb (clean s key t)) pre = true ->
  BaseFn.resolve_loop self s key (pre ++ rest) st =
  let '(ys, cs, fin) :=
    BaseFn.resolve_loop self s key rest (foldl (remember self s key) st pre) in
  (carried pre ++ ys, tried s key pre ++ cs, fin).
Proof.
  revert st. induction pre as [| [[value v] [e |]] pre IH]; intros st Hpre.
  - simpl. destruct (BaseFn.resolve_loop self s key rest st) as [[ys cs] fin].
    reflexivity.
  - simpl in Hpre. simpl. rewrite (IH _ Hpre).
    destruct (BaseFn.resolve_loop self s key rest _) as [[ys cs] fin]. reflexivity.
  - simpl in Hpre. apply andb_true_iff in Hpre as [Hc Hpre].
    simpl. destruct (BaseFn.descend v value s key) as [| e0 errs] eqn:Hd;
      [discriminate Hc |].
    simpl. rewrite (IH _ Hpre).
    destruct (BaseFn.resolve_loop self s key rest _) as [[ys cs] fin]. reflexivity.
Qed.

(** No triple is clean: the loop runs to its end, and [resolve] yields the
    resolution errors the triples carried and then the error remembered last,
    rewritten with the value of the last triple. *)
Lemma resolve_exhausted (self : BaseFn.t) (validator : BaseFn.Validator)
  (s : value) (instance : list (string * value)) (schema : value)
  (key : string) (arg : value) :
  BaseFn.key_value self instance = inr (key, arg) ->
  forallb (fun t => negb (clean s key t))
          (BaseFn.resolve_value validator (VDict instance)) = true ->
  let ts := BaseFn.resolve_value validator (VDict instance) in
  let fin := foldl (remember self s key) (BaseFn.Loop None VNone) ts in
  BaseFn.resolve self validator s instance schema =
  BaseFn.Run
    (Gen (carried ts ++
          match BaseFn.return_err fin with
          | Some err => [resolved_error self err (BaseFn.value_ fin) instance]
          | None => []
          end) None)
    (BaseFn.CallResolveValue validator (VDict instance) :: tried s key ts).
Proof.
  intros Hkey Hts ts fin. unfold BaseFn.resolve. rewrite Hkey.
  pose proof (resolve_loop_app self s key ts [] (BaseFn.Loop None VNone) Hts) as Happ.
  rewrite app_nil_r in Happ. fold ts. rewrite Happ. simpl. fold fin.
  rewrite !app_nil_r. destruct fin as [[err |] value]; reflexivity.
Qed.


(** With a non-empty instance the key extraction returns the first key and
    the value stored under the name of the function. *)
Lemma key_value_nonempty (self : BaseFn.t) (k : string) (v : value)
  (rest : list (string * value)) :
  BaseFn.key_value self ((k, v) :: rest)
  = inr (k, default VNone (dict_get (BaseFn.name (BaseFn.fn self)) ((k, v) :: rest))).
Proof. reflexivity. Qed.

Lemma resolve_does_not_raise (self : BaseFn.t) (validator : BaseFn.Validator)
  (s : value) (instance : list (string * value)) (schema : value)
  (key : string) (arg : value) :
  BaseFn.key_value self instance = inr (key, arg) ->
  raised (BaseFn.out (BaseFn.resolve self validator s instance schema)) = None.
Proof.
  intros Hkey. unfold BaseFn.resolve. rewrite Hkey.
  destruct (BaseFn.resolve_loop self s key _ _) as [[ys cs] fin]. reflexivity.
Qed.

(** The output-type check yields at most one error. *)
Lemma validate_fn_output_types_yields (self : BaseFn.t)
  (validator : BaseFn.Validator) (s : value) (instance : list (string * value)) :
  length (yielded (BaseFn.validate_fn_output_types self validator s instance)) <= 1.
Proof.
  unfold BaseFn.validate_fn_output_types.
  destruct (BaseFn.resolve_type _ _ _ _) as [e | [| t tS]]; simpl; try lia.
  destruct (BaseFn.is_types_compatible _ _); simpl; lia.
Qed.


(** C7, amended: on an empty instance [validate] raises, the [IndexError]
    of the key extraction unless the output-type check raised before it; on
    an instance with two or more keys the key extraction does not raise, it
    returns the first key and the value stored under the name of the function
    ([None] when there is none), and [validate] raises only what the
    output-type check raises. *)
Theorem validate_key_extraction (self : BaseFn.t) (validator : BaseFn.Validator)
  (s schema : value) :
  BaseFn.out (BaseFn.validate self validator s [] schema)
  = gen_raise (default IndexError
                 (raised (BaseFn.validate_fn_output_types self validator s []))) /\
  (forall (k : string) (v : value) (kv : string * value)
          (rest : list (string * value)),
      let instance := (k, v) :: kv :: rest in
      BaseFn.key_value self instance
      = inr (k, default VNone (dict_get (BaseFn.name (BaseFn.fn self)) instance)) /\
      raised (BaseFn.out (BaseFn.validate self validator s instance schema))
      = raised (BaseFn.validate_fn_output_types self validator s instance)).
Proof.
  split.
  - unfold BaseFn.validate.
    destruct (raised (BaseFn.validate_fn_output_types self validator s []));
      reflexivity.
  - intros k v kv rest instance. split; [reflexivity |].
    unfold BaseFn.validate.
    destruct (raised (BaseFn.validate_fn_output_types self validator s instance))
      as [e |] eqn:Hr; [reflexivity |].
    subst instance. rewrite (key_value_nonempty self k v (kv :: rest)).
    destruct (_ ++ _) as [| e errs]; [| reflexivity].
    simpl. eapply resolve_does_not_raise. apply key_value_nonempty.
Qed.

(** With no error from the output-type check and the argument, [validate]
    yields what [resolve] yields. *)
Lemma validate_then_resolve (self : BaseFn.t) (validator : BaseFn.Validator)
  (s : value) (instance : list (string * value)) (schema : value)
  (key : string) (arg : value) :
  BaseFn.key_value self instance = inr (key, arg) ->
  BaseFn.validate_fn_output_types self validator s instance = gen_done ->
  BaseFn.descend (BaseFn.validator self validator) arg
                 (BaseFn.schema self validator (VDict instance)) key = [] ->
  BaseFn.out (BaseFn.validate self validator s instance schema)
  = BaseFn.out (BaseFn.resolve self validator s instance schema).
Proof.
  intros Hkey Htypes Harg. unfold BaseFn.validate.
  rewrite Htypes, Hkey. simpl. rewrite Harg. reflexivity.
Qed.

End resolution.



(** C7, as stated, fails: an instance with the two keys [Ref] and
    [Fn::GetAtt] is validated without any exception; the first key is taken
    for the function. *)
Lemma validate_two_keys_does_not_raise :
  ~ (forall (E : BaseFn.Engine) (self : BaseFn.t) (validator : BaseFn.Validator)
            (s : value) (instance : list (string * value)) (schema : value),
        length instance <> 1 ->
        exists e,
          raised (BaseFn.out (BaseFn.validate self validator s instance schema))
          = Some e).
Proof.
  intros H.
  destruct (H example_engine ref_rule tt string_schema
              [("Ref", VStr "Env"); ("Fn::GetAtt", VStr "Bucket.Arn")] string_schema)
    as [e He]; [simpl; lia |].
  vm_compute in He. discriminate He.
Qed.

(** The amended statement in the example engine. *)
Lemma validate_key_extraction_witness :
  BaseFn.out (BaseFn.validate (E := example_engine) ref_rule tt string_schema []
                string_schema) = gen_raise IndexError /\
  BaseFn.key_value ref_rule [("Ref", VStr "Env"); ("Fn::GetAtt", VStr "Bucket.Arn")]
  = inr ("Ref", VStr "Env") /\
  raised (BaseFn.out (BaseFn.validate (E := example_engine) ref_rule tt string_schema
                        [("Ref", VStr "Env"); ("Fn::GetAtt", VStr "Bucket.Arn")]
                        string_schema)) = None.
Proof.
  destruct (validate_key_extraction (E := example_engine) ref_rule tt string_schema
              string_schema) as [Hempty Hmany].
  destruct (Hmany "Ref" (VStr "Env") ("Fn::GetAtt", VStr "Bucket.Arn") [])
    as [Hkey Hraised].
  split; [rewrite Hempty; reflexivity |].
  split; [exact Hkey |].
  rewrite Hraised. reflexivity.
Defined.

(** * Further properties of the code *)

(** ** The constructor of Context *)

(** Assigning [f p] under every name [p] of a list, one after the other. *)
Lemma foldl_insert_lookup (f : string -> value) (ps : list string)
  (m : gmap string value) (k : string) :
  foldl (fun acc p => <[p := f p]> acc) m ps !! k
  = if decide (k ∈ ps) then Some (f k) else m !! k.
Proof.
  revert m. induction ps as [| p ps IH]; intros m; cbn [foldl].
  - destruct (decide (k ∈ [])) as [Hin | _]; [inversion Hin | reflexivity].
  - rewrite IH. destruct (decide (k ∈ ps)) as [Hin | Hnin].
    + rewrite decide_True by (right; exact Hin). reflexivity.
    + destruct (decide (k = p)) as [-> | Hne].
      * rewrite decide_True by left. apply lookup_insert_eq.
      * rewrite decide_False by (intros Hin; inversion Hin; subst; contradiction).
        apply lookup_insert_ne. congruence.
Qed.

Lemma set_pseudo_lookup (region : string) (m : gmap string value) (k : string) :
  Context.set_pseudo region m !! k
  = if decide (k ∈ PSEUDOPARAMS) then Some (VList [_get_pseudo_value k region])
    else m !! k.
Proof.
  unfold Context.set_pseudo.
  apply (foldl_insert_lookup (fun p => VList [_get_pseudo_value p region])).
Qed.

(** The mapping of a context before and after its constructor. *)
Lemma post_init_mapping
  (h h' : gmap Context.loc Context.obj) (a : Context.init_args) (c : Context.t) :
  Context.__post_init__ h a = (h', inr c) ->
  exists m m' : gmap string value,
    h !! Context.ref_values c = Some (Context.ODict m) /\
    h' !! Context.ref_values c = Some (Context.ODict m') /\
    (forall p, p ∈ PSEUDOPARAMS ->
       m' !! p = Some (VList [_get_pseudo_value p (Context.region c)])) /\
    (forall k, k ∉ PSEUDOPARAMS -> m' !! k = m !! k).
Proof.
  intros H. apply post_init_inv in H as (l & m & tr & Hl & Htr & Hm & -> & ->).
  exists m, (Context.set_pseudo (Context.a_region a) m).
  cbn [Context.ref_values Context.region].
  split; [exact Hm |]. split; [apply lookup_insert_eq |].
  split; intros k Hk; rewrite set_pseudo_lookup.
  - rewrite decide_True by exact Hk. reflexivity.
  - rewrite decide_False by exact Hk. reflexivity.
Qed.

(** X1: a constructor call that returns leaves, in the mapping the context
    holds as [ref_values], every pseudo parameter bound to the one-element
    list of its value for the region of the context, whatever the mapping
    held under that name before; every other key of the mapping is as it
    was. *)
Theorem constructor_binds_pseudo_parameters
  (h h' : gmap Context.loc Context.obj) (a : Context.init_args) (c : Context.t) :
  Context.__post_init__ h a = (h', inr c) ->
  exists m m' : gmap string value,
    h !! Context.ref_values c = Some (Context.ODict m) /\
    h' !! Context.ref_values c = Some (Context.ODict m') /\
    (forall p, p ∈ PSEUDOPARAMS ->
       m' !! p = Some (VList [_get_pseudo_value p (Context.region c)])) /\
    (forall k, k ∉ PSEUDOPARAMS -> m' !! k = m !! k).
Proof.
  intros H. apply post_init_inv in H as (l & m & tr & Hl & Htr & Hm & -> & ->).
  exists m, (Context.set_pseudo (Context.a_region a) m).
  cbn [Context.ref_values Context.region].
  split; [exact Hm |]. split; [apply lookup_insert_eq |].
  split; intros k Hk; rewrite set_pseudo_lookup.
  - rewrite decide_True by exact Hk. reflexivity.
  - rewrite decide_False by exact Hk. reflexivity.
Qed.

Lemma constructor_binds_pseudo_parameters_witness :
  exists m m' : gmap string value,
    stale_store !! 3%positive = Some (Context.ODict m) /\
    fst (Context.__post_init__ stale_store stale_args) !! 3%positive
      = Some (Context.ODict m') /\
    m !! "AWS::Region" = Some (VStr "stale") /\
    m' !! "AWS::Region" = Some (VList [VStr "eu-west-1"]) /\
    m' !! "Env" = Some (VList [VStr "dev"]).
Proof.
  destruct (constructor_binds_pseudo_parameters stale_store
              (fst (Context.__post_init__ stale_store stale_args)) stale_args
              (Context.mk "eu-west-1" ["Fn::ForEach"] 1%positive 2%positive [] [] []
                          3%positive [] false [] (Transforms.mk [])))
    as (m & m' & Hm & Hm' & Hpseudo & Hother).
  { vm_compute. reflexivity. }
  exists m, m'. cbn in Hm, Hm'.
  split; [exact Hm |]. split; [exact Hm' |].
  assert (Hm0 : m = {[ "AWS::Region" := VStr "stale"; "Env" := VList [VStr "dev"] ]}).
  { vm_compute in Hm. inversion Hm. reflexivity. }
  split; [rewrite Hm0; vm_compute; reflexivity |].
  split.
  - rewrite (Hpseudo "AWS::Region") by (vm_compute; repeat constructor).
    reflexivity.
  - rewrite (Hother "Env"), Hm0; [vm_compute; reflexivity |].
    intros Hin. vm_compute in Hin.
    repeat (apply elem_of_cons in Hin as [Hin | Hin]; [discriminate Hin |]).
    inversion Hin.
Defined.

(** ** Context.evolve *)

(** X2: with a [ref_values] override, the mapping of the child binds every
    pseudo parameter to its value for the child's region, even when the
    override or the parent bound the name to something else; under every
    other key it has the value of the override when the override has the
    key, and the value of the parent otherwise. *)
Theorem evolve_override_merges
  (h h' : gmap Context.loc Context.obj) (self child : Context.t)
  (kw : Context.kwargs) (override : gmap string value) :
  Context.kw_ref_values kw = Some (Some override) ->
  Context.evolve h self kw = (h', inr child) ->
  exists m m' : gmap string value,
    h !! Context.ref_values self = Some (Context.ODict m) /\
    h' !! Context.ref_values child = Some (Context.ODict m') /\
    (forall p, p ∈ PSEUDOPARAMS ->
       m' !! p = Some (VList [_get_pseudo_value p (Context.region child)])) /\
    (forall k, k ∉ PSEUDOPARAMS ->
       m' !! k = match override !! k with
                 | Some x => Some x
                 | None => m !! k
                 end).
Proof.
  intros Hkw H.
  destruct (evolve_override_copies h h' self child kw override Hkw H)
    as (m & Hm & _ & _ & Hchild).
  exists m, (Context.set_pseudo (Context.region child) (override ∪ m)).
  split; [exact Hm |]. split; [exact Hchild |].
  split; intros k Hk; rewrite set_pseudo_lookup.
  - rewrite decide_True by exact Hk. reflexivity.
  - rewrite decide_False by exact Hk. rewrite lookup_union.
    destruct (override !! k) as [x |], (m !! k) as [y |]; reflexivity.
Qed.

Lemma evolve_override_merges_witness :
  exists (child : Context.t) (m' : gmap string value),
    snd (Context.evolve example_store example_context override_kwargs) = inr child /\
    fst (Context.evolve example_store example_context override_kwargs)
      !! Context.ref_values child = Some (Context.ODict m') /\
    m' !! "AWS::Region" = Some (VList [VStr "us-east-1"]) /\
    m' !! "Item" = Some (VList [VStr "a"]).
Proof.
  destruct (Context.evolve example_store example_context override_kwargs)
    as [h' [e | child]] eqn:Hev; [vm_compute in Hev; discriminate Hev |].
  destruct (evolve_override_merges example_store h' example_context child
              override_kwargs _ eq_refl Hev)
    as (m & m' & Hm & Hm' & Hpseudo & Hother).
  exists child, m'. split; [reflexivity |]. split; [exact Hm' |].
  assert (Hregion : Context.region child = "us-east-1").
  { vm_compute in Hev. inversion Hev. reflexivity. }
  split.
  - rewrite (Hpseudo "AWS::Region") by (vm_compute; repeat constructor).
    rewrite Hregion. reflexivity.
  - rewrite (Hother "Item"); [reflexivity |].
    intros Hin. vm_compute in Hin.
    repeat (apply elem_of_cons in Hin as [Hin | Hin]; [discriminate Hin |]).
    inversion Hin.
Defined.

(** X3: a call of [evolve] that returns leaves every object the store held
    before the call as it was, with one exception: when no [ref_values]
    keyword is given, the mapping of the parent. *)
Theorem evolve_frame
  (h h' : gmap Context.loc Context.obj) (self child : Context.t)
  (kw : Context.kwargs) (l : Context.loc) (o : Context.obj) :
  Context.evolve h self kw = (h', inr child) ->
  h !! l = Some o ->
  l <> Context.ref_values self \/ Context.kw_ref_values kw <> None ->
  h' !! l = Some o.
Proof.
  intros H Hl Hcase.
  apply evolve_inv in H as (items & m & Hp & Hr & Hpc & Hreg & Hrv).
  set (o1 := Context.ODeque (Context.evolve_path items (Context.kw_path kw))) in *.
  pose proof (alloc_other h o1 l (ex_intro _ _ Hl)) as Hl1. rewrite Hl in Hl1.
  cbv zeta in Hrv.
  destruct (Context.kw_ref_values kw) as [[override |] |]; [| contradiction |].
  - destruct Hrv as [_ ->].
    set (o2 := Context.ODict (override ∪ m)) in *.
    pose proof (alloc_fresh (fst (Context.alloc h o1)) o2) as Hf2.
    rewrite lookup_insert_ne.
    + rewrite alloc_other by eauto. exact Hl1.
    + intros Heq. rewrite Heq, Hl1 in Hf2. discriminate Hf2.
  - destruct Hrv as [_ ->]. destruct Hcase as [Hne | Hne]; [| congruence].
    rewrite lookup_insert_ne by congruence. exact Hl1.
Qed.

Lemma evolve_frame_witness :
  fst (Context.evolve example_store example_context (region_only "cn-north-1"))
    !! Context.path example_context = Some (Context.ODeque [VStr "Resources"]).
Proof.
  destruct (Context.evolve example_store example_context (region_only "cn-north-1"))
    as [h' [e | child]] eqn:Hev; [vm_compute in Hev; discriminate Hev |].
  apply (evolve_frame example_store h' example_context child
           (region_only "cn-north-1") _ _ Hev).
  - vm_compute. reflexivity.
  - left. discriminate.
Defined.

(** X4: the child of a call of [evolve] that returns has, for every field
    other than [path] and [ref_values], the value of the keyword when the
    keyword is given and the value of the parent otherwise; [value_path] in
    particular is the parent's own deque unless one is passed. *)
Theorem evolve_inherits_fields
  (h h' : gmap Context.loc Context.obj) (self child : Context.t)
  (kw : Context.kwargs) :
  Context.evolve h self kw = (h', inr child) ->
  Context.region child = default (Context.region self) (Context.kw_region kw) /\
  Context.functions child = default (Context.functions self) (Context.kw_functions kw) /\
  Context.value_path child
    = default (Context.value_path self) (Context.kw_value_path kw) /\
  Context.parameters child
    = default (Context.parameters self) (Context.kw_parameters kw) /\
  Context.resources child
    = default (Context.resources self) (Context.kw_resources kw) /\
  Context.conditions child
    = default (Context.conditions self) (Context.kw_conditions kw) /\
  Context.fn_foreach child
    = default (Context.fn_foreach self) (Context.kw_fn_foreach kw) /\
  Context.resolved_value child
    = default (Context.resolved_value self) (Context.kw_resolved_value kw) /\
  Context.resolved_conditions child
    = default (Context.resolved_conditions self) (Context.kw_resolved_conditions kw) /\
  Some (Context.transforms child)
    = default (Some (Context.transforms self)) (Context.kw_transforms kw).
Proof.
  unfold Context.evolve.
  destruct (h !! Context.path self) as [[items | ?] |];
    try (intros H; inversion H; fail).
  destruct (h !! Context.ref_values self) as [[? | m] |];
    try (intros H; inversion H; fail).
  unfold Context.alloc. cbn [fst snd].
  destruct (Context.kw_ref_values kw) as [[override |] |]; intros H;
    apply post_init_inv in H as (l & m' & tr & Hl & Htr & Hm' & -> & ->);
    cbn in Htr |- *; rewrite Htr; repeat split; reflexivity.
Qed.

Lemma evolve_inherits_fields_witness :
  exists child : Context.t,
    snd (Context.evolve example_store example_context (region_only "cn-north-1"))
      = inr child /\
    Context.region child = "cn-north-1" /\
    Context.parameters child = Context.parameters example_context /\
    Context.value_path child = Context.value_path example_context.
Proof.
  destruct (Context.evolve example_store example_context (region_only "cn-north-1"))
    as [h' [e | child]] eqn:Hev; [vm_compute in Hev; discriminate Hev |].
  destruct (evolve_inherits_fields example_store h' example_context child
              (region_only "cn-north-1") Hev)
    as (Hregion & _ & Hvp & Hparams & _).
  exists child. split; [reflexivity |].
  split; [exact Hregion |]. split; [exact Hparams | exact Hvp].
Defined.

(** X5: a call of [evolve] that returns gives the child a deque of its own
    for [path], at an address the store did not use: it holds the segments of
    the parent followed by the [path] keyword when one other than [None] is
    given, and the segments of the parent alone otherwise.  The deque of the
    parent holds what it held before. *)
Theorem evolve_copies_path
  (h h' : gmap Context.loc Context.obj) (self child : Context.t)
  (kw : Context.kwargs) (items : list value) :
  Context.evolve h self kw = (h', inr child) ->
  h !! Context.path self = Some (Context.ODeque items) ->
  h' !! Context.path self = Some (Context.ODeque items) /\
  h !! Context.path child = None /\
  (forall seg, Context.kw_path kw = Some seg -> seg <> VNone ->
     h' !! Context.path child = Some (Context.ODeque (items ++ [seg]))) /\
  (Context.kw_path kw = None \/ Context.kw_path kw = Some VNone ->
     h' !! Context.path child = Some (Context.ODeque items)).
Proof.
  intros H Hp.
  destruct (evolve_path_copied h h' self child kw H)
    as (items' & Hp' & Hparent & Hfresh & Hchild).
  rewrite Hp in Hp'. inversion Hp'; subst items'.
  split; [exact Hparent |]. split; [exact Hfresh |].
  split.
  - intros seg Hkw Hseg. rewrite Hchild, Hkw. unfold Context.evolve_path.
    destruct seg; try reflexivity. contradiction.
  - intros [Hkw | Hkw]; rewrite Hchild, Hkw; reflexivity.
Qed.

Lemma evolve_copies_path_witness :
  exists child : Context.t,
    snd (Context.evolve example_store example_context (path_only (VStr "Foo")))
      = inr child /\
    fst (Context.evolve example_store example_context (path_only (VStr "Foo")))
      !! Context.path child = Some (Context.ODeque [VStr "Resources"; VStr "Foo"]) /\
    fst (Context.evolve example_store example_context (path_only (VStr "Foo")))
      !! Context.path example_context = Some (Context.ODeque [VStr "Resources"]).
Proof.
  destruct (Context.evolve example_store example_context (path_only (VStr "Foo")))
    as [h' [e | child]] eqn:Hev; [vm_compute in Hev; discriminate Hev |].
  destruct (evolve_copies_path example_store h' example_context child
              (path_only (VStr "Foo")) [VStr "Resources"] Hev)
    as (Hparent & _ & Hseg & _).
  { vm_compute. reflexivity. }
  exists child. split; [reflexivity |]. split; [| exact Hparent].
  apply (Hseg (VStr "Foo")); [reflexivity | discriminate].
Defined.

(** X6: [evolve(transforms=None)] ends in the [NameError] of the missing
    module-level [_init_transforms], and [evolve(ref_values=None)] in the
    [TypeError] of the item assignment on [None]; in both cases every object
    the store held before the call is as it was. *)
Theorem evolve_rejects_none
  (h : gmap Context.loc Context.obj) (self : Context.t) (kw : Context.kwargs)
  (items : list value) (m : gmap string value) :
  h !! Context.path self = Some (Context.ODeque items) ->
  h !! Context.ref_values self = Some (Context.ODict m) ->
  (Context.kw_transforms kw = Some None ->
     snd (Context.evolve h self kw) = inl NameError) /\
  (Context.kw_transforms kw <> Some None ->
   Context.kw_ref_values kw = Some None ->
     snd (Context.evolve h self kw) = inl TypeError) /\
  (Context.kw_transforms kw = Some None \/ Context.kw_ref_values kw = Some None ->
     forall l o, h !! l = Some o -> fst (Context.evolve h self kw) !! l = Some o).
Proof.
  intros Hp Hr. unfold Context.evolve. rewrite Hp, Hr.
  set (o1 := Context.ODeque (Context.evolve_path items (Context.kw_path kw))).
  assert (Hkeep : forall l o, h !! l = Some o ->
                    fst (Context.alloc h o1) !! l = Some o).
  { intros l o Hl. rewrite alloc_other by eauto. exact Hl. }
  assert (Hkeep2 : forall o2 l o, h !! l = Some o ->
                    fst (Context.alloc (fst (Context.alloc h o1)) o2) !! l = Some o).
  { intros o2 l o Hl. rewrite alloc_other by (rewrite (Hkeep l o Hl); eauto).
    exact (Hkeep l o Hl). }
  unfold Context.__post_init__.
  destruct (Context.alloc h o1) as [h1 p] eqn:Ha1. cbn [fst] in Hkeep, Hkeep2.
  split; [| split].
  - intros Ht.
    destruct (Context.kw_ref_values kw) as [[override |] |];
      [destruct (Context.alloc h1 _) as [h2 l2] |..]; cbn; rewrite Ht; reflexivity.
  - intros Ht Hrv. rewrite Hrv. cbn.
    destruct (Context.kw_transforms kw) as [[tr |] |]; [| contradiction |];
      reflexivity.
  - intros Hcase l o Hl.
    destruct (Context.kw_ref_values kw) as [[override |] |] eqn:Hrv.
    + destruct Hcase as [Ht | Hc]; [| discriminate Hc].
      specialize (Hkeep2 (Context.ODict (override ∪ m)) l o Hl).
      destruct (Context.alloc h1 _) as [h2 l2]. cbn in Hkeep2 |- *.
      rewrite Ht. exact Hkeep2.
    + cbn. destruct (Context.kw_transforms kw) as [[tr |] |]; cbn;
        exact (Hkeep l o Hl).
    + destruct Hcase as [Ht | Hc]; [| discriminate Hc].
      cbn. rewrite Ht. cbn. exact (Hkeep l o Hl).
Qed.

Lemma evolve_rejects_none_witness :
  snd (Context.evolve example_store example_context ref_values_none) = inl TypeError.
Proof.
  destruct (evolve_rejects_none example_store example_context ref_values_none
              [VStr "Resources"] (Context.set_pseudo "us-east-1" ∅))
    as (_ & Htype & _).
  - vm_compute. reflexivity.
  - exact example_ref_values.
  - apply Htype; [discriminate | reflexivity].
Defined.

(** ** Context.refs and Context.fn_value on a constructed context *)

Lemma elem_of_map_keys (m : gmap string value) (name : string) :
  name ∈ (map_to_list m).*1 <-> is_Some (m !! name).
Proof.
  rewrite list_elem_of_fmap. split.
  - intros [[k x] [-> Hin]]. apply elem_of_map_to_list in Hin. eauto.
  - intros [x Hx]. exists (name, x). split; [reflexivity |].
    apply elem_of_map_to_list. exact Hx.
Qed.

(** X7: on a context the constructor has returned, [refs] returns, and a
    name is among the references exactly when it is the name of a parameter,
    the name of a resource, a pseudo parameter, or a key of the mapping the
    constructor was given. *)
Theorem refs_of_constructed_context
  (h h' : gmap Context.loc Context.obj) (a : Context.init_args) (c : Context.t) :
  Context.__post_init__ h a = (h', inr c) ->
  exists (m : gmap string value) (names : list string),
    h !! Context.ref_values c = Some (Context.ODict m) /\
    Context.refs h' c = inr names /\
    forall name,
      name ∈ names <->
      name ∈ dict_keys (Context.parameters c) \/
      name ∈ dict_keys (Context.resources c) \/
      name ∈ PSEUDOPARAMS \/ is_Some (m !! name).
Proof.
  intros H. apply post_init_inv in H as (l & m & tr & Hl & Htr & Hm & -> & ->).
  exists m. eexists. cbn [Context.ref_values].
  split; [exact Hm |]. unfold Context.refs. cbn [Context.ref_values].
  rewrite lookup_insert_eq. split; [reflexivity |].
  intros name. cbn [Context.parameters Context.resources].
  rewrite !elem_of_app, elem_of_map_keys, set_pseudo_lookup.
  destruct (decide (name ∈ PSEUDOPARAMS)) as [Hin | Hnin].
  - split; [intros _ | intros _; right; right; eauto].
    right; right; left; exact Hin.
  - split.
    + intros [? | [? | ?]]; auto.
    + intros [? | [? | [? | ?]]]; auto. contradiction.
Qed.

Lemma refs_of_constructed_context_witness :
  exists names : list string,
    Context.refs (fst (Context.__post_init__ stale_store stale_args))
      (Context.mk "eu-west-1" ["Fn::ForEach"] 1%positive 2%positive [] [] []
                  3%positive [] false [] (Transforms.mk [])) = inr names /\
    "AWS::StackName" ∈ names /\ "Env" ∈ names.
Proof.
  destruct (refs_of_constructed_context stale_store
              (fst (Context.__post_init__ stale_store stale_args)) stale_args
              (Context.mk "eu-west-1" ["Fn::ForEach"] 1%positive 2%positive [] [] []
                          3%positive [] false [] (Transforms.mk [])))
    as (m & names & Hm & Hrefs & Hnames).
  { vm_compute. reflexivity. }
  exists names. split; [exact Hrefs |].
  split; apply Hnames.
  - right; right; left. vm_compute. repeat constructor.
  - right; right; right.
    vm_compute in Hm. inversion Hm. vm_compute. eauto.
Defined.

(** X8: on a context the constructor has returned, [fn_value] of a [Ref] to
    a pseudo parameter that is not also the name of a parameter yields one
    item, the one-element list holding the value of the pseudo parameter for
    the region of the context, and raises nothing. *)
Theorem fn_value_ref_pseudo_parameter
  (find : Context.t -> value -> gen value)
  (h h' : gmap Context.loc Context.obj) (a : Context.init_args) (c : Context.t)
  (p : string) :
  Context.__post_init__ h a = (h', inr c) ->
  p ∈ PSEUDOPARAMS ->
  dict_get p (Context.parameters c) = None ->
  Context.fn_value find h' c [("Ref", VStr p)]
  = Gen [VList [_get_pseudo_value p (Context.region c)]] None.
Proof.
  intros H Hp Hparam.
  destruct (post_init_mapping h h' a c H) as (m & m' & _ & Hm' & Hpseudo & _).
  unfold Context.fn_value. cbn [String.eqb Ascii.eqb Bool.eqb hashable].
  rewrite Hm', (Hpseudo p Hp), Hparam. reflexivity.
Qed.

Lemma fn_value_ref_pseudo_parameter_witness :
  Context.fn_value Context.fn_find_in_map_absent
    (fst (Context.__post_init__ stale_store stale_args))
    (Context.mk "eu-west-1" ["Fn::ForEach"] 1%positive 2%positive [] [] []
                3%positive [] false [] (Transforms.mk []))
    [("Ref", VStr "AWS::Partition")]
  = Gen [VList [VStr "aws"]] None.
Proof.
  apply (fn_value_ref_pseudo_parameter Context.fn_find_in_map_absent stale_store
           (fst (Context.__post_init__ stale_store stale_args)) stale_args
           (Context.mk "eu-west-1" ["Fn::ForEach"] 1%positive 2%positive [] [] []
                       3%positive [] false [] (Transforms.mk []))
           "AWS::Partition").
  - vm_compute. reflexivity.
  - vm_compute. repeat constructor.
  - reflexivity.
Defined.

(** X9: for a [Ref] to a name that both [ref_values] and [parameters] know,
    [fn_value] yields the [ref_values] entry first, as one item, and then the
    candidate values of the parameter one by one: its default, when it tests
    true, and its allowed values. *)
Theorem fn_value_ref_known_twice
  (find : Context.t -> value -> gen value)
  (h : gmap Context.loc Context.obj) (self : Context.t) (name : string)
  (m : gmap string value) (entry : value) (p : Parameter_.t)
  (allowed : list value) :
  h !! Context.ref_values self = Some (Context.ODict m) ->
  m !! name = Some entry ->
  dict_get name (Context.parameters self) = Some p ->
  Parameter_.allowed_values p = VList allowed ->
  Context.fn_value find h self [("Ref", VStr name)]
  = Gen (entry :: (if truthy (Parameter_.default p)
                   then Parameter_.default p :: allowed else allowed)) None.
Proof.
  intros Hh Hm Hp Hallowed.
  unfold Context.fn_value. cbn [String.eqb Ascii.eqb Bool.eqb hashable].
  rewrite Hh, Hm, Hp.
  destruct (truthy (Parameter_.default p)) eqn:Hd.
  - rewrite (parameter_ref_truthy_default p self allowed Hd Hallowed). reflexivity.
  - rewrite (parameter_ref_falsy_default p self allowed Hd Hallowed). reflexivity.
Qed.

Lemma fn_value_ref_known_twice_witness :
  Context.fn_value Context.fn_find_in_map_absent bound_store example_context
    [("Ref", VStr "Env")]
  = Gen [VList [VStr "qa"]; VStr "dev"; VStr "dev"; VStr "prod"] None.
Proof.
  apply (fn_value_ref_known_twice Context.fn_find_in_map_absent bound_store
           example_context "Env" {[ "Env" := VList [VStr "qa"] ]}
           (VList [VStr "qa"])
           (Parameter_.mk "String" (VStr "dev") (VList [VStr "dev"; VStr "prod"]) VNone)
           [VStr "dev"; VStr "prod"]).
  - vm_compute. reflexivity.
  - vm_compute. reflexivity.
  - reflexivity.
  - reflexivity.
Defined.

(** ** Symbol entities *)

(** X10: [Parameter(v)] and [Resource(v)] return exactly when [v] is a
    mapping whose [Type] is a string, and then hold that string and, for a
    parameter, what the mapping has under [Default], [AllowedValues] and
    [Description] ([None] for a missing key); a value that is not a mapping
    ends in an [AttributeError], a mapping whose [Type] is missing or not a
    string in the [ValueError] on the type. *)
Theorem entity_construction (v : value) :
  (forall p, Parameter_.__post_init__ v = inr p <->
     exists d s,
       v = VDict d /\ dict_get "Type" d = Some (VStr s) /\
       p = Parameter_.mk s (default VNone (dict_get "Default" d))
                         (default VNone (dict_get "AllowedValues" d))
                         (default VNone (dict_get "Description" d))) /\
  (forall r, Resource.__post_init__ v = inr r <->
     exists d s,
       v = VDict d /\ dict_get "Type" d = Some (VStr s) /\ r = Resource.mk s) /\
  (is_mapping v = false ->
     Parameter_.__post_init__ v = inl AttributeError /\
     Resource.__post_init__ v = inl AttributeError) /\
  (forall d, v = VDict d -> (forall s, dict_get "Type" d <> Some (VStr s)) ->
     Parameter_.__post_init__ v = inl (ValueError "Type must be a string") /\
     Resource.__post_init__ v = inl (ValueError "Type must be a string")).
Proof.
  split; [| split; [| split]].
  - intros p. split.
    + destruct v as [| | | | | d]; try discriminate.
      unfold Parameter_.__post_init__, py_get. simpl.
      destruct (dict_get "Type" d) as [[| | | s | |] |] eqn:Hty; try discriminate.
      intros H. inversion H; subst p. exists d, s. auto.
    + intros (d & s & -> & Hty & ->).
      unfold Parameter_.__post_init__, py_get. simpl. rewrite Hty. reflexivity.
  - intros r. split.
    + destruct v as [| | | | | d]; try discriminate.
      unfold Resource.__post_init__, py_get. simpl.
      destruct (dict_get "Type" d) as [[| | | s | |] |] eqn:Hty; try discriminate.
      intros H. inversion H; subst r. exists d, s. auto.
    + intros (d & s & -> & Hty & ->).
      unfold Resource.__post_init__, py_get. simpl. rewrite Hty. reflexivity.
  - intros Hm. destruct v; try discriminate Hm; split; reflexivity.
  - intros d -> Hty.
    unfold Parameter_.__post_init__, Resource.__post_init__, py_get. simpl.
    destruct (dict_get "Type" d) as [[| | | s | |] |] eqn:Hd; try (split; reflexivity).
    exfalso. exact (Hty s eq_refl).
Qed.

(** X11: allowed values that are not a list.  A number other than zero
    cannot be iterated: the default, if it tests true, has been yielded when
    the [TypeError] comes.  A non-empty string is iterated character by
    character. *)
Theorem parameter_ref_scalar_allowed_values {C : Type} (p : Parameter_.t)
  (context : C) :
  (forall n, Parameter_.allowed_values p = VInt n -> n <> 0%Z ->
     Parameter_.ref p context
     = Gen (if truthy (Parameter_.default p) then [Parameter_.default p] else [])
           (Some TypeError)) /\
  (forall s, Parameter_.allowed_values p = VStr s -> s <> "" ->
     Parameter_.ref p context
     = Gen ((if truthy (Parameter_.default p) then [Parameter_.default p] else [])
            ++ chars s) None).
Proof.
  split.
  - intros n Ha Hn. unfold Parameter_.ref. rewrite Ha. simpl.
    destruct (Z.eqb_spec n 0) as [-> | _]; [contradiction |]. simpl.
    destruct (truthy (Parameter_.default p)); reflexivity.
  - intros s Ha Hs. unfold Parameter_.ref. rewrite Ha. simpl.
    destruct (String.eqb_spec s "") as [-> | _]; [contradiction |]. simpl.
    destruct (truthy (Parameter_.default p)); reflexivity.
Qed.

Lemma parameter_ref_scalar_allowed_values_witness :
  Parameter_.ref (Parameter_.mk "Number" (VInt 1) (VInt 5) VNone) tt
    = Gen [VInt 1] (Some TypeError) /\
  Parameter_.ref (Parameter_.mk "String" VNone (VStr "ab") VNone) tt
    = Gen [VStr "a"; VStr "b"] None.
Proof.
  split.
  - apply (proj1 (parameter_ref_scalar_allowed_values
                    (Parameter_.mk "Number" (VInt 1) (VInt 5) VNone) tt) 5%Z);
      [reflexivity | lia].
  - apply (proj2 (parameter_ref_scalar_allowed_values
                    (Parameter_.mk "String" VNone (VStr "ab") VNone) tt) "ab");
      [reflexivity | discriminate].
Defined.


(** ** Transforms *)

Lemma append_all_strings (names acc : list string) :
  Transforms.append_all (map VStr names) acc = inr (acc ++ names).
Proof.
  revert acc. induction names as [| n names IH]; intros acc; simpl.
  - rewrite app_nil_r. reflexivity.
  - rewrite IH, <- app_assoc. reflexivity.
Qed.

Lemma append_all_not_string (l : list value) (acc : list string) :
  forallb is_string l = false ->
  Transforms.append_all l acc = inl (ValueError "Transform must be a string").
Proof.
  revert acc. induction l as [| v l IH]; intros acc Hl; [discriminate Hl |].
  destruct v; try reflexivity. simpl in Hl |- *. apply IH. exact Hl.
Qed.

(** X13: [Transforms] keeps the names of a list of strings in their order,
    duplicates included; a single string stands for the list holding it and
    [None] for the empty list; a list with an entry that is not a string, or
    a single value that is neither a string nor [None], ends in the
    [ValueError] on the transform. *)
Theorem transforms_construction :
  (forall names,
     Transforms.__post_init__ (VList (map VStr names)) = inr (Transforms.mk names)) /\
  (forall s, Transforms.__post_init__ (VStr s) = inr (Transforms.mk [s])) /\
  Transforms.__post_init__ VNone = inr (Transforms.mk []) /\
  (forall l, forallb is_string l = false ->
     Transforms.__post_init__ (VList l)
     = inl (ValueError "Transform must be a string")) /\
  (forall v, is_string v = false -> v <> VNone -> (forall l, v <> VList l) ->
     Transforms.__post_init__ v = inl (ValueError "Transform must be a string")).
Proof.
  split; [| split; [| split; [| split]]].
  - intros names. unfold Transforms.__post_init__.
    rewrite append_all_strings. reflexivity.
  - reflexivity.
  - reflexivity.
  - intros l Hl. unfold Transforms.__post_init__.
    rewrite (append_all_not_string l [] Hl). reflexivity.
  - intros v Hs Hn Hl. destruct v; try reflexivity; try discriminate Hs.
    + contradiction.
    + exfalso. exact (Hl _ eq_refl).
Qed.

(** ** ContextManager: the transform registry and the factories *)

Lemma strings_of_values (l : list value) :
  forallb is_string l = true -> exists names, l = map VStr names.
Proof.
  induction l as [| v l IH]; intros Hl; [exists []; reflexivity |].
  simpl in Hl. apply andb_true_iff in Hl as [Hv Hl].
  destruct (IH Hl) as [names ->]. destruct v; try discriminate Hv.
  exists (s :: names). reflexivity.
Qed.

(** The one way [_init_transforms] raises. *)
Lemma init_transforms_raises (transforms : value) (e : exn) :
  ContextManager._init_transforms transforms = inl e ->
  e = ValueError "Transform must be a string" /\
  exists l, transforms = VList l /\ forallb is_string l = false.
Proof.
  destruct transforms as [| | | | l |]; try discriminate.
  unfold ContextManager._init_transforms, Transforms.__post_init__.
  destruct (forallb is_string l) eqn:Hl.
  - destruct (strings_of_values l Hl) as [names ->].
    rewrite append_all_strings. discriminate.
  - rewrite (append_all_not_string l [] Hl).
    intros H. inversion H. split; [reflexivity |]. exists l. auto.
Qed.

(** X14: [_init_transforms] lets only a list through to the [ValueError] of
    [Transforms]: a string gives the registry holding it, a list of strings
    the registry of its names, and any other value, a mapping or a number or
    [None], the empty registry; an exception is raised only for a list with
    an entry that is not a string. *)
Theorem init_transforms_cases (transforms : value) :
  (forall s, transforms = VStr s ->
     ContextManager._init_transforms transforms = inr (Transforms.mk [s])) /\
  (forall names, transforms = VList (map VStr names) ->
     ContextManager._init_transforms transforms = inr (Transforms.mk names)) /\
  (is_string transforms = false -> (forall l, transforms <> VList l) ->
     ContextManager._init_transforms transforms = inr (Transforms.mk [])) /\
  (forall e, ContextManager._init_transforms transforms = inl e ->
     e = ValueError "Transform must be a string" /\
     exists l, transforms = VList l /\ forallb is_string l = false).
Proof.
  split; [| split; [| split]].
  - intros s ->. reflexivity.
  - intros names ->.
    unfold ContextManager._init_transforms, Transforms.__post_init__.
    rewrite append_all_strings. reflexivity.
  - intros Hs Hl. destruct transforms; try reflexivity; try discriminate Hs.
    exfalso. exact (Hl _ eq_refl).
  - apply init_transforms_raises.
Qed.

Lemma new_context_root (h : gmap Context.loc Context.obj) (self : ContextManager.t)
  (region : string) (functions : list string) (path : list value)
  (resources : list (string * Resource.t)) :
  root_context h self region path functions resources
    (ContextManager.new_context h self region functions path resources).
Proof.
  unfold root_context, ContextManager.new_context.
  set (o1 := Context.ODeque path).
  set (o2 := Context.ODeque []).
  set (o3 := Context.ODict ∅).
  pose proof (alloc_fresh h o1) as Hf1.
  pose proof (alloc_lookup h o1) as Hl1.
  destruct (Context.alloc h o1) as [h1 p] eqn:Ha1. cbn [fst snd] in *.
  pose proof (alloc_fresh h1 o2) as Hf2.
  pose proof (alloc_lookup h1 o2) as Hl2.
  pose proof (fun l => alloc_other h1 o2 l) as Ho2.
  destruct (Context.alloc h1 o2) as [h2 vp] eqn:Ha2. cbn [fst snd] in *.
  pose proof (alloc_fresh h2 o3) as Hf3.
  pose proof (alloc_lookup h2 o3) as Hl3.
  pose proof (fun l => alloc_other h2 o3 l) as Ho3.
  destruct (Context.alloc h2 o3) as [h3 rv] eqn:Ha3. cbn [fst snd] in *.
  assert (Hh1 : forall l o, h !! l = Some o -> h1 !! l = Some o).
  { intros l o Hl. pose proof (alloc_other h o1 l (ex_intro _ _ Hl)) as Ho.
    rewrite Ha1 in Ho. cbn in Ho. rewrite Ho. exact Hl. }
  assert (Hh2 : forall l o, h1 !! l = Some o -> h2 !! l = Some o).
  { intros l o Hl. rewrite Ho2 by eauto. exact Hl. }
  assert (Hh3 : forall l o, h2 !! l = Some o -> h3 !! l = Some o).
  { intros l o Hl. rewrite Ho3 by eauto. exact Hl. }
  assert (Hne : forall l o, h2 !! l = Some o -> rv <> l).
  { intros l o Hl ->. rewrite Hl in Hf3. discriminate Hf3. }
  unfold Context.__post_init__.
  cbn [Context.a_transforms Context.a_ref_values Context.a_region].
  rewrite Hl3. subst o1 o2 o3.
  eexists. split; [reflexivity |].
  cbn [fst snd Context.region Context.functions Context.parameters
       Context.resources Context.conditions Context.transforms
       Context.resolved_value Context.path Context.value_path Context.ref_values
       Context.a_region Context.a_functions Context.a_parameters
       Context.a_resources Context.a_conditions Context.a_resolved_value
       Context.a_path Context.a_value_path].
  repeat split.
  - rewrite lookup_insert_ne by (apply (Hne p _ (Hh2 _ _ Hl1))).
    exact (Hh3 _ _ (Hh2 _ _ Hl1)).
  - rewrite lookup_insert_ne by (apply (Hne vp _ Hl2)).
    exact (Hh3 _ _ Hl2).
  - apply lookup_insert_eq.
  - exact Hf1.
  - destruct (h !! rv) as [o |] eqn:Hrv; [| reflexivity].
    exfalso. exact (Hne rv o (Hh2 _ _ (Hh1 _ _ Hrv)) eq_refl).
  - intros l o Hl.
    rewrite lookup_insert_ne by (apply (Hne l o (Hh2 _ _ (Hh1 _ _ Hl)))).
    exact (Hh3 _ _ (Hh2 _ _ (Hh1 _ _ Hl))).
Qed.

(** X15: each of the four factories returns a context, from any store and
    for any region, that holds the tables and the transform registry of the
    manager; its path, functions and resources are: for the [Resources]
    section, [Resources], the [Fn::ForEach] pattern exactly when the
    registry has [AWS::LanguageExtensions], and the resources; for the
    properties of a resource, [Resources], the name of the resource and
    [Properties], all of [FUNCTIONS], and the resources; for [Outputs],
    [Outputs], [Fn::ForEach] and the resources; for [Conditions],
    [Conditions], [Fn::ForEach] and no resources.  The path, value path and
    mapping are new objects, the mapping holds the pseudo parameters of the
    region and nothing else, and the store is otherwise untouched. *)
Theorem factories_create_root_contexts (h : gmap Context.loc Context.obj)
  (self : ContextManager.t) (region resource_name : string)
  (FUNCTIONS : list string) :
  root_context h self region [VStr "Resources"]
    (if existsb (String.eqb "AWS::LanguageExtensions")
                (Transforms._transforms (ContextManager.transforms self))
     then ["Fn::ForEach::[a-zA-Z0-9]+"] else [])
    (ContextManager.resources self)
    (ContextManager.create_context_for_resources h self region) /\
  root_context h self region
    [VStr "Resources"; VStr resource_name; VStr "Properties"] FUNCTIONS
    (ContextManager.resources self)
    (ContextManager.create_context_for_resource_properties FUNCTIONS h self region
       resource_name) /\
  root_context h self region [VStr "Outputs"] ["Fn::ForEach"]
    (ContextManager.resources self)
    (ContextManager.create_context_for_outputs h self region) /\
  root_context h self region [VStr "Conditions"] ["Fn::ForEach"] []
    (ContextManager.create_context_for_conditions h self region).
Proof.
  repeat split; apply new_context_root.
Qed.

(** ** ContextManager: indexing the sections *)

Lemma dict_get_set {A : Type} (k k' : string) (x : A) (d : list (string * A)) :
  dict_get k' (dict_set k x d) = if String.eqb k' k then Some x else dict_get k' d.
Proof.
  induction d as [| [k0 v0] d IH]; simpl.
  - reflexivity.
  - destruct (String.eqb_spec k k0) as [-> | Hne]; simpl.
    + destruct (String.eqb k' k0); reflexivity.
    + rewrite IH. destruct (String.eqb_spec k' k0) as [-> | Hne'].
      * destruct (String.eqb_spec k0 k) as [Heq | _]; [congruence | reflexivity].
      * reflexivity.
Qed.

(** The loop over the items up to the first one that cannot be built. *)
Lemma index_items_app {E : Type} (ctor : value -> result E)
  (pre rest : list (string * value)) (table : list (string * E)) :
  forallb (constructible ctor) pre = true ->
  snd (ContextManager.index_items ctor pre table) = None /\
  ContextManager.index_items ctor (pre ++ rest) table
  = ContextManager.index_items ctor rest
      (fst (ContextManager.index_items ctor pre table)).
Proof.
  revert table. induction pre as [| [k v] pre IH]; intros table Hpre.
  - split; reflexivity.
  - simpl in Hpre. apply andb_true_iff in Hpre as [Hv Hpre].
    unfold constructible in Hv. simpl in Hv |- *.
    destruct (ctor v) as [e | x]; [discriminate Hv |]. apply IH. exact Hpre.
Qed.

(** A name the items do not have is looked up in the table as before. *)
Lemma index_items_other {E : Type} (ctor : value -> result E)
  (items : list (string * value)) (table : list (string * E)) (name : string) :
  name ∉ dict_keys items ->
  dict_get name (fst (ContextManager.index_items ctor items table))
  = dict_get name table.
Proof.
  revert table. induction items as [| [k v] items IH]; intros table Hname.
  - reflexivity.
  - simpl. destruct (ctor v) as [e | x]; [reflexivity |].
    rewrite IH.
    + rewrite dict_get_set. destruct (String.eqb_spec name k) as [-> | _].
      * exfalso. apply Hname. left.
      * reflexivity.
    + intros Hin. apply Hname. right. exact Hin.
Qed.

(** X16: indexing a section stops at the first entry that cannot be built.
    For a section of entries without loop constructs in which the entries
    [pre] can be built and the next one cannot, the table is the one [pre]
    gives, the exception of the constructor ends the indexing, and a name
    that only occurs after the failing entry is not in the table. *)
Theorem index_section_stops_at_failure {E : Type} (ctor : value -> result E)
  (pre post : list (string * value)) (k : string) (v : value) (e : exn) :
  forallb plain_key (pre ++ (k, v) :: post) = true ->
  forallb (constructible ctor) pre = true ->
  ctor v = inl e ->
  ContextManager.index_section ctor (VDict (pre ++ (k, v) :: post)) []
  = (fst (ContextManager.index_items ctor pre []), Some e) /\
  forall name, name ∉ dict_keys pre ->
    dict_get name (fst (ContextManager.index_section ctor
                          (VDict (pre ++ (k, v) :: post)) [])) = None.
Proof.
  intros Hplain Hpre Hv.
  assert (Hsection :
    ContextManager.index_section ctor (VDict (pre ++ (k, v) :: post)) []
    = (fst (ContextManager.index_items ctor pre []), Some e)).
  { unfold ContextManager.index_section.
    rewrite (expand_foreach_plain _ Hplain). cbn [yielded raised].
    destruct (index_items_app ctor pre ((k, v) :: post) [] Hpre) as [_ ->].
    simpl. rewrite Hv. reflexivity. }
  split; [exact Hsection |].
  intros name Hname. rewrite Hsection. cbn [fst].
  rewrite (index_items_other ctor pre [] name Hname). reflexivity.
Qed.

Lemma index_section_stops_at_failure_witness :
  ContextManager._init_parameters (VDict parameters_with_gap) []
  = ([("Env", Parameter_.mk "String" VNone VNone VNone)],
     Some (ValueError "Type must be a string")) /\
  dict_get "Late" (fst (ContextManager._init_parameters (VDict parameters_with_gap) []))
  = None.
Proof.
  destruct (index_section_stops_at_failure Parameter_.__post_init__
              [("Env", VDict [("Type", VStr "String")])]
              [("Late", VDict [("Type", VStr "Number")])]
              "Broken" (VDict [("Default", VInt 1)])
              (ValueError "Type must be a string")
              eq_refl eq_refl eq_refl) as [Hsection Hlate].
  split; [exact Hsection |].
  apply (Hlate "Late").
  intros Hin. apply elem_of_cons in Hin as [Hin | Hin]; [discriminate Hin |].
  inversion Hin.
Defined.

Lemma dict_set_fresh {A : Type} (k : string) (x : A) (d : list (string * A)) :
  k ∉ dict_keys d -> dict_set k x d = d ++ [(k, x)].
Proof.
  induction d as [| [k0 v0] d IH]; intros Hk; simpl.
  - reflexivity.
  - destruct (String.eqb_spec k k0) as [-> | _].
    + exfalso. apply Hk. left.
    + rewrite IH; [reflexivity |]. intros Hin. apply Hk. right. exact Hin.
Qed.

Lemma dict_get_app {A : Type} (k : string) (d d' : list (string * A)) :
  dict_get k (d ++ d') = match dict_get k d with
                         | Some x => Some x
                         | None => dict_get k d'
                         end.
Proof.
  induction d as [| [k0 v0] d IH]; simpl; [reflexivity |].
  destruct (String.eqb k k0); [reflexivity | exact IH].
Qed.

Lemma dict_get_none {A : Type} (k : string) (d : list (string * A)) :
  k ∉ dict_keys d -> dict_get k d = None.
Proof.
  induction d as [| [k0 v0] d IH]; intros Hk; simpl; [reflexivity |].
  destruct (String.eqb_spec k k0) as [-> | _].
  - exfalso. apply Hk. left.
  - apply IH. intros Hin. apply Hk. right. exact Hin.
Qed.

(** Entries with distinct names that can all be built are appended to the
    table in their order. *)
Lemma index_items_distinct {E : Type} (ctor : value -> result E)
  (items : list (string * value)) (table : list (string * E)) :
  forallb (constructible ctor) items = true ->
  NoDup (dict_keys items) ->
  (forall k, k ∈ dict_keys items -> k ∉ dict_keys table) ->
  exists built : list (string * E),
    ContextManager.index_items ctor items table = (table ++ built, None) /\
    dict_keys built = dict_keys items /\
    forall k v, (k, v) ∈ items ->
      exists x, ctor v = inr x /\ dict_get k built = Some x.
Proof.
  revert table. induction items as [| [k v] items IH]; intros table Hc Hnd Hfresh.
  - exists []. rewrite app_nil_r. split; [reflexivity |]. split; [reflexivity |].
    intros k v Hin. inversion Hin.
  - simpl in Hc. apply andb_true_iff in Hc as [Hv Hc].
    unfold constructible in Hv. simpl in Hv.
    destruct (ctor v) as [e | x] eqn:Hx; [discriminate Hv |].
    cbn [dict_keys map fst] in Hnd. apply NoDup_cons in Hnd as [Hk Hnd].
    destruct (IH (dict_set k x table) Hc Hnd) as (built & Hrun & Hkeys & Hget).
    { intros k' Hk'. rewrite dict_set_fresh by (apply Hfresh; left).
      unfold dict_keys. rewrite map_app. intros Hin.
      apply elem_of_app in Hin as [Hin | Hin].
      - apply (Hfresh k'); [right; exact Hk' | exact Hin].
      - apply list_elem_of_singleton in Hin. simpl in Hin. subst k'.
        apply Hk. exact Hk'. }
    exists ((k, x) :: built). simpl. rewrite Hx, Hrun.
    rewrite dict_set_fresh by (apply Hfresh; left).
    rewrite <- app_assoc. split; [reflexivity |].
    split; [unfold dict_keys in *; simpl; rewrite Hkeys; reflexivity |].
    intros k' v' Hin. apply elem_of_cons in Hin as [Heq | Hin].
    + inversion Heq; subst k' v'. exists x. rewrite String.eqb_refl. auto.
    + destruct (Hget k' v' Hin) as (x' & Hx' & Hb). exists x'.
      split; [exact Hx' |].
      destruct (String.eqb_spec k' k) as [-> | _]; [| exact Hb].
      exfalso. apply Hk. apply list_elem_of_fmap. exists (k, v'). auto.
Qed.

(** X17: a section whose entries have distinct names, none of them a loop
    construct, and can all be built is indexed whole: no exception, the
    names of the table are the names of the section in their order, and
    looking a name up gives what the constructor built from its entry. *)
Theorem index_section_whole {E : Type} (ctor : value -> result E)
  (entries : list (string * value)) :
  forallb plain_key entries = true ->
  forallb (constructible ctor) entries = true ->
  NoDup (dict_keys entries) ->
  exists table : list (string * E),
    ContextManager.index_section ctor (VDict entries) [] = (table, None) /\
    dict_keys table = dict_keys entries /\
    forall k v, (k, v) ∈ entries ->
      exists x, ctor v = inr x /\ dict_get k table = Some x.
Proof.
  intros Hplain Hc Hnd.
  destruct (index_items_distinct ctor entries [] Hc Hnd) as (built & Hrun & Hkeys & Hget).
  { intros k _ Hin. inversion Hin. }
  exists built. unfold ContextManager.index_section.
  rewrite (expand_foreach_plain _ Hplain). cbn [yielded raised].
  rewrite Hrun. simpl. auto.
Qed.

Lemma index_section_whole_witness :
  exists table : list (string * Resource.t),
    ContextManager._init_resources (VDict two_resources) [] = (table, None) /\
    dict_keys table = ["Bucket"; "Topic"] /\
    dict_get "Topic" table = Some (Resource.mk "AWS::SNS::Topic").
Proof.
  destruct (index_section_whole Resource.__post_init__ two_resources eq_refl eq_refl)
    as (table & Hrun & Hkeys & Hget).
  { repeat constructor; intros Hin.
    - apply elem_of_cons in Hin as [Hin | Hin]; [discriminate Hin | inversion Hin].
    - inversion Hin. }
  exists table. split; [exact Hrun |]. split; [exact Hkeys |].
  destruct (Hget "Topic" (VDict [("Type", VStr "AWS::SNS::Topic")])) as (x & Hx & Hlook).
  { right. left. }
  rewrite Hlook. simpl in Hx. inversion Hx. reflexivity.
Defined.

(** ** ContextManager: construction *)

(** X18: what leaves the construction of a manager.  On a template that is
    a mapping, whatever is raised is either the [ValueError] of a transform
    that is not a string or an exception that is neither a [ValueError] nor
    an [AttributeError]; on a template that is not a mapping the
    [AttributeError] of the bare [template.get] for [Transform] is raised. *)
Theorem construction_exceptions (template : value) :
  (forall e, is_mapping template = true ->
     ContextManager.__post_init__ template = inl e ->
     e = ValueError "Transform must be a string" \/ ContextManager.caught e = false) /\
  (is_mapping template = false ->
     ContextManager.__post_init__ template = inl AttributeError).
Proof.
  split.
  - intros e Hm. destruct template as [| | | | | d]; try discriminate Hm.
    unfold ContextManager.__post_init__.
    destruct (ContextManager.try_section ContextManager._init_parameters _ _ _)
      as [ps [e1 |]] eqn:H1.
    { intros H. inversion H; subst e1. right.
      apply (try_section_escapes ContextManager._init_parameters (VDict d)
               "Parameters" [] e). rewrite H1. reflexivity. }
    destruct (ContextManager.try_section ContextManager._init_resources _ _ _)
      as [rs [e2 |]] eqn:H2.
    { intros H. inversion H; subst e2. right.
      apply (try_section_escapes ContextManager._init_resources (VDict d)
               "Resources" [] e). rewrite H2. reflexivity. }
    cbn [py_get_default mbind result_bind mret result_ret].
    destruct (ContextManager._init_transforms _) as [et | tr] eqn:Ht.
    { intros H. inversion H; subst et. left.
      apply (init_transforms_raises _ e Ht). }
    destruct (ContextManager.try_section ContextManager._init_conditions _ _ _)
      as [cs [e3 |]] eqn:H3.
    { intros H. inversion H; subst e3. right.
      apply (try_section_escapes ContextManager._init_conditions (VDict d)
               "Conditions" [] e). rewrite H3. reflexivity. }
    discriminate.
  - intros Hm. destruct template; try discriminate Hm; reflexivity.
Qed.

Lemma construction_exceptions_witness :
  ContextManager.__post_init__ (VList [VStr "Resources"]) = inl AttributeError.
Proof.
  apply (proj2 (construction_exceptions (VList [VStr "Resources"]))). reflexivity.
Defined.

(** X19: when construction returns a manager, each of the sections
    [Parameters], [Resources] and [Conditions] that the template has but
    that is not a mapping has left its table empty. *)
Theorem sections_not_mappings_left_empty (d : list (string * value))
  (cm : ContextManager.t) :
  ContextManager.__post_init__ (VDict d) = inr cm ->
  (forall section, dict_get "Parameters" d = Some section ->
     is_mapping section = false -> ContextManager.parameters cm = []) /\
  (forall section, dict_get "Resources" d = Some section ->
     is_mapping section = false -> ContextManager.resources cm = []) /\
  (forall section, dict_get "Conditions" d = Some section ->
     is_mapping section = false -> ContextManager.conditions cm = []).
Proof.
  unfold ContextManager.__post_init__.
  destruct (ContextManager.try_section ContextManager._init_parameters _ _ _)
    as [ps [e1 |]] eqn:H1; [discriminate |].
  destruct (ContextManager.try_section ContextManager._init_resources _ _ _)
    as [rs [e2 |]] eqn:H2; [discriminate |].
  cbn [py_get_default mbind result_bind mret result_ret].
  destruct (ContextManager._init_transforms _) as [et | tr]; [discriminate |].
  destruct (ContextManager.try_section ContextManager._init_conditions _ _ _)
    as [cs [e3 |]] eqn:H3; [discriminate |].
  intros H. inversion H; subst cm. cbn.
  split; [| split]; intros section Hget Hm.
  - unfold ContextManager._init_parameters in H1.
    rewrite (try_section_not_mapping _ d "Parameters" section Hget Hm) in H1.
    inversion H1. reflexivity.
  - unfold ContextManager._init_resources in H2.
    rewrite (try_section_not_mapping _ d "Resources" section Hget Hm) in H2.
    inversion H2. reflexivity.
  - unfold ContextManager._init_conditions in H3.
    rewrite (try_section_not_mapping _ d "Conditions" section Hget Hm) in H3.
    inversion H3. reflexivity.
Qed.

Lemma sections_not_mappings_left_empty_witness :
  exists cm : ContextManager.t,
    ContextManager.__post_init__ (VDict template_with_list_sections) = inr cm /\
    ContextManager.parameters cm = [] /\ ContextManager.conditions cm = [] /\
    ContextManager.resources cm = [("Bucket", Resource.mk "AWS::S3::Bucket")].
Proof.
  destruct (ContextManager.__post_init__ (VDict template_with_list_sections))
    as [e | cm] eqn:Hcm; [vm_compute in Hcm; discriminate Hcm |].
  destruct (sections_not_mappings_left_empty template_with_list_sections cm Hcm)
    as (Hp & _ & Hc).
  exists cm. split; [reflexivity |].
  split; [apply (Hp (VList [VStr "Env"])); reflexivity |].
  split; [apply (Hc VNone); reflexivity |].
  vm_compute in Hcm. inversion Hcm. reflexivity.
Defined.

(** ** Macro expansion: what it yields and what it raises *)

Lemma gen_concat_yielded {A : Type} (gs : list (gen A)) (x : A) :
  x ∈ yielded (gen_concat gs) -> exists g, g ∈ gs /\ x ∈ yielded g.
Proof.
  induction gs as [| g gs IH]; simpl; [intros H; inversion H |].
  unfold gen_seq. destruct (raised g).
  - intros H. exists g. split; [left | exact H].
  - cbn [yielded]. intros H. apply elem_of_app in H as [H | H].
    + exists g. split; [left | exact H].
    + destruct (IH H) as (g' & Hg' & Hx). exists g'. split; [right; exact Hg' | exact Hx].
Qed.

Lemma gen_concat_raised {A : Type} (gs : list (gen A)) (e : exn) :
  raised (gen_concat gs) = Some e -> exists g, g ∈ gs /\ raised g = Some e.
Proof.
  induction gs as [| g gs IH]; simpl; [discriminate |].
  unfold gen_seq. destruct (raised g) as [e0 |] eqn:Hg.
  - rewrite Hg. intros H. exists g. split; [left | congruence].
  - cbn [raised]. intros H. destruct (IH H) as (g' & Hg' & He).
    exists g'. split; [right; exact Hg' | exact He].
Qed.

Lemma try_then_yielded {A : Type} (body rest : gen A) (x : A) :
  x ∈ yielded (ContextManager.try_then body rest) ->
  x ∈ yielded body \/ x ∈ yielded rest.
Proof.
  unfold ContextManager.try_then, gen_seq.
  destruct (raised body) as [e |].
  - destruct (ContextManager.is_value_error e); cbn [yielded]; [| auto].
    intros H. apply elem_of_app in H. exact H.
  - cbn [yielded]. intros H. apply elem_of_app in H. exact H.
Qed.

Lemma try_then_raised {A : Type} (body rest : gen A) (e : exn) :
  raised (ContextManager.try_then body rest) = Some e ->
  (raised body = Some e /\ ContextManager.is_value_error e = false) \/
  raised rest = Some e.
Proof.
  unfold ContextManager.try_then, gen_seq.
  destruct (raised body) as [e0 |] eqn:Hb.
  - destruct (ContextManager.is_value_error e0) eqn:Hv; cbn [raised]; [auto |].
    rewrite Hb. intros H. inversion H; subst e0. auto.
  - cbn [raised]. auto.
Qed.

(** What a loop construct yields or raises beyond the [TypeError],
    [KeyError] and [IndexError] of its own indexing comes from expanding its
    output, a mapping inside the value. *)
(** What a generator that is done, or ends at once, yielded and raised. *)
Ltac gen_invert H :=
  try unfold gen_done in H; try unfold gen_raise in H;
  cbn [yielded raised] in H; inversion H.

Lemma loop_construct_inv
  (expand : value -> list (string * value) -> gen (string * value)) (v : value) :
  (forall x, x ∈ yielded (ContextManager.loop_construct expand v) ->
     exists id collection d ident iterator,
       v = VList [id; collection; VDict d] /\
       x ∈ yielded (expand (VDict d) [(ident, iterator)])) /\
  (forall e, raised (ContextManager.loop_construct expand v) = Some e ->
     e = TypeError \/ e = KeyError \/ e = IndexError \/
     exists id collection d ident iterator,
       v = VList [id; collection; VDict d] /\
       raised (expand (VDict d) [(ident, iterator)]) = Some e).
Proof.
  unfold ContextManager.loop_construct.
  assert (Hindex :
    (forall x, x ∈ yielded (match py_index v 0 with
                             | inl e => gen_raise e
                             | inr _ => @gen_done (string * value)
                             end) -> False) /\
    (forall e, raised (match py_index v 0 with
                       | inl e => gen_raise e
                       | inr _ => @gen_done (string * value)
                       end) = Some e ->
       e = TypeError \/ e = KeyError \/ e = IndexError)).
  { split.
    - intros x. destruct (py_index v 0); intros H; inversion H.
    - intros e. destruct v as [| | | s | l | d]; simpl.
      + intros H; inversion H; auto.
      + intros H; inversion H; auto.
      + intros H; inversion H; auto.
      + destruct (chars s !! 0); simpl; intros H; inversion H; auto.
      + destruct (l !! 0); simpl; intros H; inversion H; auto.
      + intros H; inversion H; auto. }
  destruct Hindex as [Hiy Hir].
  destruct (py_len v) as [e0 | n] eqn:Hlen.
  { split; [intros x H; gen_invert H |].
    intros e H. gen_invert H; subst e0.
    destruct v; simpl in Hlen; inversion Hlen; auto. }
  destruct (negb (n =? 3)%nat).
  { split; [intros x H; gen_invert H | intros e H; gen_invert H]. }
  destruct v as [| | | s | l | d];
    try solve [split; [intros x H; destruct (Hiy x H)
                      | intros e H; destruct (Hir e H) as [? | [? | ?]]; auto]].
  destruct l as [| id [| collection [| output [| extra l]]]];
    try solve [split; [intros x H; destruct (Hiy x H)
                      | intros e H; destruct (Hir e H) as [? | [? | ?]]; auto]].
  destruct id as [| | | ident | |];
    try solve [split; [intros x H; gen_invert H | intros e H; gen_invert H]].
  destruct output as [| | | | | d];
    try solve [split; [intros x H; gen_invert H | intros e H; gen_invert H]].
  destruct (py_iter collection) as [e0 | its] eqn:Hiter.
  { split; [intros x H; gen_invert H |].
    intros e H. gen_invert H; subst e0.
    destruct collection; simpl in Hiter; inversion Hiter; auto. }
  split.
  - intros x H. apply gen_concat_yielded in H as (g & Hg & Hx).
    apply list_elem_of_fmap in Hg as (iterator & -> & _).
    exists (VStr ident), collection, d, ident, iterator. auto.
  - intros e H. apply gen_concat_raised in H as (g & Hg & He).
    apply list_elem_of_fmap in Hg as (iterator & -> & _).
    right; right; right.
    exists (VStr ident), collection, d, ident, iterator. auto.
Qed.

Lemma expands_well_all (v : value) :
  expands_well v /\ (forall l, v = VList l -> Forall expands_well l).
Proof.
  induction v as [| b | n | s | l IH | d IH] using value_nested_ind;
    try (split; [intros d0 Hd; discriminate Hd | intros l0 Hl; discriminate Hl]).
  - split; [intros d0 Hd; discriminate Hd |].
    intros l0 Hl. inversion Hl; subst l0.
    eapply Forall_impl; [exact IH |]. intros x [Hx _]. exact Hx.
  - split; [| intros l0 Hl; discriminate Hl].
    intros d0 Hd values. inversion Hd; subst d0. clear Hd.
    induction d as [| [k v] d IHd].
    + split; [intros kv H; cbn in H; inversion H | cbn; discriminate].
    + apply Forall_cons in IH as [[_ Hv] IH]. cbn [snd] in Hv.
      specialize (IHd IH). destruct IHd as [IHy IHr].
      rewrite _expand_foreach_cons.
      destruct (ContextManager.rewrite_key (dict_keys values) k) as [e | k'] eqn:Hk.
      { split; [intros kv H; inversion H |].
        unfold gen_raise. cbn [raised]. intros H. inversion H; subst e.
        clear -Hk. revert k Hk. induction (dict_keys values) as [| key keys IHk];
          intros k Hk; [discriminate Hk |].
        simpl in Hk.
        destruct (ContextManager.unpack_pair key) as [e | [id iteration]] eqn:Hu.
        - simpl in Hk. inversion Hk; subst e.
          destruct key as [| a [| b [| c key]]]; simpl in Hu; discriminate Hu.
        - simpl in Hk. destruct (Re.sub id iteration k); [eauto | discriminate Hk]. }
      assert (Hbody :
        (forall kv,
           kv ∈ yielded (if String.prefix "Fn::ForEach::" k'
                         then ContextManager.loop_construct
                                ContextManager._expand_foreach v
                         else Gen [(k', v)] None) ->
           String.prefix "Fn::ForEach::" kv.1 = false) /\
        raised (if String.prefix "Fn::ForEach::" k'
                then ContextManager.loop_construct ContextManager._expand_foreach v
                else Gen [(k', v)] None) <> Some AttributeError).
      { destruct (String.prefix "Fn::ForEach::" k') eqn:Hprefix.
        - destruct (loop_construct_inv ContextManager._expand_foreach v) as [Hy Hr].
          split.
          + intros kv Hkv.
            destruct (Hy kv Hkv) as (id & collection & d' & ident & iterator & -> & Hin).
            specialize (Hv _ eq_refl).
            apply Forall_cons in Hv as [_ Hv]. apply Forall_cons in Hv as [_ Hv].
            apply Forall_cons in Hv as [Hout _].
            exact (proj1 (Hout d' eq_refl [(ident, iterator)]) kv Hin).
          + intros Hraised.
            destruct (Hr _ Hraised) as [H | [H | [H | H]]]; try discriminate H.
            destruct H as (id & collection & d' & ident & iterator & -> & Hin).
            specialize (Hv _ eq_refl).
            apply Forall_cons in Hv as [_ Hv]. apply Forall_cons in Hv as [_ Hv].
            apply Forall_cons in Hv as [Hout _].
            exact (proj2 (Hout d' eq_refl [(ident, iterator)]) Hin).
        - split; [| discriminate].
          intros kv Hkv. cbn [yielded] in Hkv.
          apply list_elem_of_singleton in Hkv. subst kv. exact Hprefix. }
      destruct Hbody as [Hby Hbr]. split.
      * intros kv Hkv. apply try_then_yielded in Hkv as [Hkv | Hkv]; auto.
      * intros Hraised. apply try_then_raised in Hraised as [[Hraised _] | Hraised];
          auto.
Qed.

(** X20: whatever the bindings, the expansion of a section never yields a
    key that starts with [Fn::ForEach::], at any depth of nesting: the
    entries it hands to the indexers are never loop constructs. *)
Theorem expand_foreach_yields_no_loop_key (instance : value)
  (values : list (string * value)) (k : string) (v : value) :
  (k, v) ∈ yielded (ContextManager._expand_foreach instance values) ->
  String.prefix "Fn::ForEach::" k = false.
Proof.
  intros Hin. destruct instance as [| | | | | d];
    try (unfold ContextManager._expand_foreach, gen_raise in Hin;
         cbn [yielded] in Hin; inversion Hin; fail).
  exact (proj1 (proj1 (expands_well_all (VDict d)) d eq_refl values) (k, v) Hin).
Qed.

Lemma expand_foreach_yields_no_loop_key_witness :
  String.prefix "Fn::ForEach::" "Resource${Id}" = false.
Proof.
  apply (expand_foreach_yields_no_loop_key foreach_loop [] "Resource${Id}"
           (VDict [("Type", VStr "X")])).
  vm_compute. left.
Defined.


Lemma loop_construct_passed_over
  (expand : value -> list (string * value) -> gen (string * value)) (v : value) :
  passed_over v = true -> ContextManager.loop_construct expand v = gen_done.
Proof.
  intros Hv. unfold ContextManager.loop_construct.
  destruct v as [| | | s | l | d]; try discriminate Hv.
  - cbn [py_len mret result_ret].
    destruct (negb (String.length s =? 3)%nat) eqn:Hlen; [reflexivity |].
    destruct s as [| a s]; [discriminate Hlen | reflexivity].
  - destruct l as [| id [| collection [| output [| extra l]]]]; try reflexivity.
    destruct id; try reflexivity. destruct output; try reflexivity.
    discriminate Hv.
  - cbn [py_len mret result_ret]. simpl in Hv. rewrite Hv. reflexivity.
Qed.

(** X22: a loop construct that is malformed in one of these ways is
    dropped and nothing is raised: the expansion of the section is the
    expansion of its other entries. *)
Theorem expand_foreach_drops_malformed_loop (k : string) (v : value)
  (before after : list (string * value)) :
  String.prefix "Fn::ForEach::" k = true ->
  passed_over v = true ->
  forallb plain_key before = true ->
  ContextManager._expand_foreach (VDict (before ++ (k, v) :: after)) []
  = gen_seq (Gen before None) (ContextManager._expand_foreach (VDict after) []).
Proof.
  intros Hk Hv Hbefore. induction before as [| [k0 v0] before IH].
  - cbn [app]. rewrite _expand_foreach_cons.
    change (ContextManager.rewrite_key (dict_keys []) k) with (inr k : result string).
    cbv beta iota. rewrite Hk, (loop_construct_passed_over _ v Hv).
    destruct (ContextManager._expand_foreach (VDict after) []) as [ys r].
    reflexivity.
  - cbn [forallb] in Hbefore. apply andb_true_iff in Hbefore as [Hk0 Hbefore].
    unfold plain_key in Hk0. cbn [fst] in Hk0. apply negb_true_iff in Hk0.
    cbn [app]. rewrite _expand_foreach_cons, (IH Hbefore).
    change (ContextManager.rewrite_key (dict_keys []) k0) with (inr k0 : result string).
    cbv beta iota. rewrite Hk0.
    destruct (ContextManager._expand_foreach (VDict after) []) as [ys r].
    reflexivity.
Qed.

Lemma expand_foreach_drops_malformed_loop_witness :
  ContextManager._expand_foreach
    (VDict [("Bucket", VDict [("Type", VStr "AWS::S3::Bucket")]);
            ("Fn::ForEach::Topics", VList [VStr "Name"; VList [VStr "a"]]);
            ("Queue", VDict [("Type", VStr "AWS::SQS::Queue")])]) []
  = Gen [("Bucket", VDict [("Type", VStr "AWS::S3::Bucket")]);
         ("Queue", VDict [("Type", VStr "AWS::SQS::Queue")])] None.
Proof.
  exact (expand_foreach_drops_malformed_loop "Fn::ForEach::Topics"
           (VList [VStr "Name"; VList [VStr "a"]])
           [("Bucket", VDict [("Type", VStr "AWS::S3::Bucket")])]
           [("Queue", VDict [("Type", VStr "AWS::SQS::Queue")])]
           eq_refl eq_refl eq_refl).
Defined.

(** ** The rewriting of keys *)





(** ** BaseFn: the pieces of validate *)

Section rule.

Context {E : BaseFn.Engine}.

Local Abbreviation triple := (value * BaseFn.Validator * option ValidationError.t)%type.

(** X24: for a single-key instance on which the output-type check does not
    raise, the first call [validate] makes to the engine is a [descend] of
    the restricted validator, against the schema [{"type": ["string"]}] and
    under the key of the instance, on the value stored under the name of the
    rule: the argument of the function when the key is the rule's own name,
    and [None] when it is any other. *)
Theorem validate_descends_on_own_name (self : BaseFn.t)
  (validator : BaseFn.Validator) (s schema : value) (k : string) (x : value) :
  raised (BaseFn.validate_fn_output_types self validator s [(k, x)]) = None ->
  exists rest,
    BaseFn.calls (BaseFn.validate self validator s [(k, x)] schema)
    = BaseFn.CallDescend
        (BaseFn.validator_evolve validator (BaseFn.functions self) false)
        (if String.eqb (BaseFn.name (BaseFn.fn self)) k then x else VNone)
        (VDict [("type", VList [VStr "string"])]) k
      :: rest.
Proof.
  intros Hraised. unfold BaseFn.validate. rewrite Hraised.
  unfold BaseFn.key_value. cbn [dict_keys map fst dict_get mret result_ret].
  destruct (String.eqb (BaseFn.name (BaseFn.fn self)) k); cbn [default];
    destruct (_ ++ _); eexists; reflexivity.
Qed.

Lemma fix_error_idempotent (self : BaseFn.t) (err : ValidationError.t) :
  BaseFn.fix_error self (BaseFn.fix_error self err) = BaseFn.fix_error self err.
Proof.
  destruct err as [message [name |] path];
    unfold BaseFn.fix_error, BaseFn.is_ref_error; cbn [ValidationError.validator].
  - destruct (String.eqb name "ref") eqn:Href;
      cbn [ValidationError.validator ValidationError.message ValidationError.path].
    + rewrite Href. reflexivity.
    + destruct (String.eqb (BaseFn.py (BaseFn.fn self)) "ref"); reflexivity.
  - cbn [ValidationError.validator ValidationError.message ValidationError.path].
    destruct (String.eqb (BaseFn.py (BaseFn.fn self)) "ref"); reflexivity.
Qed.

Lemma fix_error_identity (self : BaseFn.t) (err : ValidationError.t) :
  ValidationError.validator (BaseFn.fix_error self err) = Some (BaseFn.py (BaseFn.fn self))
  \/ ValidationError.validator (BaseFn.fix_error self err) = Some "ref".
Proof.
  unfold BaseFn.fix_error, BaseFn.is_ref_error.
  destruct (ValidationError.validator err) as [name |] eqn:Hv; [| left; reflexivity].
  destruct (String.eqb_spec name "ref") as [-> | _]; [right; exact Hv | left; reflexivity].
Qed.

(** What [fix_errors] keeps and what it changes. *)
Lemma fix_errors_relabels_aux (self : BaseFn.t) (errs : list ValidationError.t) :
  map ValidationError.message (BaseFn.fix_errors self errs)
    = map ValidationError.message errs /\
  map ValidationError.path (BaseFn.fix_errors self errs)
    = map ValidationError.path errs /\
  Forall (fun err =>
            ValidationError.validator err = Some (BaseFn.py (BaseFn.fn self))
            \/ ValidationError.validator err = Some "ref")
         (BaseFn.fix_errors self errs) /\
  BaseFn.fix_errors self (BaseFn.fix_errors self errs) = BaseFn.fix_errors self errs.
Proof.
  unfold BaseFn.fix_errors. induction errs as [| err errs (IHm & IHp & IHv & IHi)].
  - repeat split; constructor.
  - cbn [map]. rewrite IHm, IHp, IHi, fix_error_idempotent.
    repeat split.
    + f_equal. unfold BaseFn.fix_error. destruct (BaseFn.is_ref_error err); reflexivity.
    + f_equal. unfold BaseFn.fix_error. destruct (BaseFn.is_ref_error err); reflexivity.
    + constructor; [apply fix_error_identity | exact IHv].
Qed.


(** One call of [resolve_type]. *)
Lemma resolve_type_step (depth : nat) (self : BaseFn.t) (validator : BaseFn.Validator)
  (schema : value) :
  BaseFn.resolve_type depth self validator schema =
  (has_type ← BaseFn.has_key "type" schema;
   if has_type : bool then ty ← BaseFn.subscript schema "type"; mret (BaseFn.ensure_list ty)
   else
     has_ref ← BaseFn.has_key "$ref" schema;
     if has_ref : bool then
       resolved ← BaseFn._resolve_ref validator schema;
       match depth with
       | O => raise RecursionError
       | S depth' => BaseFn.resolve_type depth' self validator resolved
       end
     else mret []).
Proof. destruct depth; reflexivity. Qed.

(** X26: a result of [resolve_type] does not depend on how much deeper the
    interpreter could have gone: with a larger depth it returns the same
    types. *)
Theorem resolve_type_deeper (depth extra : nat) (self : BaseFn.t)
  (validator : BaseFn.Validator) (schema : value) (tS : list value) :
  BaseFn.resolve_type depth self validator schema = inr tS ->
  BaseFn.resolve_type (depth + extra) self validator schema = inr tS.
Proof.
  revert schema. induction depth as [| depth IH]; intros schema;
    rewrite (resolve_type_step _ self validator schema),
            (resolve_type_step (_ + extra) self validator schema).
  - destruct (BaseFn.has_key "type" schema) as [e | [|]]; simpl; try (intros H; exact H).
    destruct (BaseFn.has_key "$ref" schema) as [e | [|]]; simpl; try (intros H; exact H).
    destruct (BaseFn._resolve_ref validator schema); simpl; discriminate.
  - destruct (BaseFn.has_key "type" schema) as [e | [|]]; simpl; try (intros H; exact H).
    destruct (BaseFn.has_key "$ref" schema) as [e | [|]]; simpl; try (intros H; exact H).
    destruct (BaseFn._resolve_ref validator schema) as [e | resolved]; simpl;
      [intros H; exact H | apply IH].
Qed.

(** X27: a schema without a [type] whose [$ref] resolves to the schema
    itself sends [resolve_type] round until the depth is used up: it ends in
    a [RecursionError] for every depth, and so does the output-type check. *)
Theorem resolve_type_cycle (self : BaseFn.t) (validator : BaseFn.Validator)
  (d : list (string * value)) (ref : value) (instance : list (string * value)) :
  dict_get "type" d = None ->
  dict_get "$ref" d = Some ref ->
  BaseFn.resolver_resolve validator ref = VDict d ->
  (forall depth,
     BaseFn.resolve_type depth self validator (VDict d) = inl RecursionError) /\
  BaseFn.validate_fn_output_types self validator (VDict d) instance
  = gen_raise RecursionError.
Proof.
  intros Hty Href Hres.
  assert (Hall : forall depth,
            BaseFn.resolve_type depth self validator (VDict d) = inl RecursionError).
  { induction depth as [| depth IH]; rewrite resolve_type_step;
      unfold BaseFn._resolve_ref; simpl; rewrite Hty, Href; simpl; rewrite ?Hres;
      [reflexivity | exact IH]. }
  split; [exact Hall |].
  unfold BaseFn.validate_fn_output_types. rewrite Hall. reflexivity.
Qed.

(** What the loop of [resolve] yields are the resolution errors of the
    triples, and the error it remembers at its end is relabelled. *)
Lemma resolve_loop_identities (self : BaseFn.t) (s : value) (key : string)
  (triples : list triple) (st : BaseFn.loop_state) :
  (forall err, BaseFn.return_err st = Some err -> relabelled self err) ->
  (forall e, e ∈ (BaseFn.resolve_loop self s key triples st).1.1 ->
     exists t : triple, t ∈ triples /\ t.2 = Some e) /\
  (forall st' err, (BaseFn.resolve_loop self s key triples st).2 = Some st' ->
     BaseFn.return_err st' = Some err -> relabelled self err).
Proof.
  revert st. induction triples as [| [[value v] [e |]] triples IH]; intros st Hst.
  - split; [intros e H; inversion H |].
    intros st' err H. inversion H; subst st'. apply Hst.
  - cbn [BaseFn.resolve_loop].
    destruct (IH (BaseFn.Loop (BaseFn.return_err st) value) Hst) as [IHy IHf].
    destruct (BaseFn.resolve_loop self s key triples _) as [[ys cs] fin].
    cbn [fst snd] in *. split; [| exact IHf].
    intros e0 Hin. apply elem_of_cons in Hin as [-> | Hin].
    + exists (value, v, Some e). split; [left | reflexivity].
    + destruct (IHy e0 Hin) as (t & Ht & He). exists t. split; [right; exact Ht | exact He].
  - cbn [BaseFn.resolve_loop].
    destruct (BaseFn.fix_errors self (BaseFn.descend v value s key))
      as [| e0 errs] eqn:Hfix.
    + cbn [fst snd]. split; [intros e H; inversion H | intros st' err H; discriminate H].
    + assert (Hrel : relabelled self e0).
      { pose proof (proj1 (proj2 (proj2 (fix_errors_relabels_aux self
                       (BaseFn.descend v value s key))))) as Hall.
        rewrite Hfix in Hall. apply Forall_cons in Hall as [He0 _]. exact He0. }
      destruct (IH (BaseFn.Loop (Some e0) value)) as [IHy IHf].
      { intros err H. inversion H; subst err. exact Hrel. }
      destruct (BaseFn.resolve_loop self s key triples _) as [[ys cs] fin].
      cbn [fst snd] in *. split; [| exact IHf].
      intros e Hin. destruct (IHy e Hin) as (t & Ht & He).
      exists t. split; [right; exact Ht | exact He].
Qed.

(** X28: every error [validate] yields for a non-empty instance carries the
    identity of the rule or the identity [ref], unless it is a resolution
    error that [resolve_value] handed over, which is passed on as it is. *)
Theorem validate_error_identities (self : BaseFn.t) (validator : BaseFn.Validator)
  (s : value) (instance : list (string * value)) (schema : value)
  (key : string) (arg : value) (err : ValidationError.t) :
  BaseFn.key_value self instance = inr (key, arg) ->
  err ∈ yielded (BaseFn.out (BaseFn.validate self validator s instance schema)) ->
  ValidationError.validator err = Some (BaseFn.py (BaseFn.fn self)) \/
  ValidationError.validator err = Some "ref" \/
  exists t : triple,
    t ∈ BaseFn.resolve_value validator (VDict instance) /\ t.2 = Some err.
Proof.
  intros Hkey. unfold BaseFn.validate.
  destruct (raised (BaseFn.validate_fn_output_types self validator s instance));
    [intros H; inversion H |].
  rewrite Hkey.
  destruct (_ ++ _) as [| e0 errs] eqn:Herrs.
  - cbn [BaseFn.out]. unfold BaseFn.resolve. rewrite Hkey.
    pose proof (resolve_loop_identities self s key
                  (BaseFn.resolve_value validator (VDict instance))
                  (BaseFn.Loop None VNone)) as Hloop.
    destruct Hloop as [Hy Hf]; [intros e H; discriminate H |].
    destruct (BaseFn.resolve_loop self s key _ _) as [[ys cs] fin].
    cbn [fst snd BaseFn.out yielded] in *. intros Hin.
    apply elem_of_app in Hin as [Hin | Hin]; [right; right; exact (Hy err Hin) |].
    destruct fin as [[[e1 |] value] |]; try (inversion Hin; fail).
    apply list_elem_of_singleton in Hin. subst err.
    destruct (Hf _ e1 eq_refl eq_refl) as [H | H]; [left | right; left]; exact H.
  - cbn [BaseFn.out yielded]. rewrite <- Herrs. intros Hin.
    pose proof (proj1 (proj2 (proj2 (fix_errors_relabels_aux self
                  (yielded (BaseFn.validate_fn_output_types self validator s instance))))))
      as H1.
    pose proof (proj1 (proj2 (proj2 (fix_errors_relabels_aux self
                  (BaseFn.descend (BaseFn.validator self validator) arg
                     (BaseFn.schema self validator (VDict instance)) key)))))
      as H2.
    apply elem_of_app in Hin as [Hin | Hin].
    + rewrite Forall_forall in H1. destruct (H1 err Hin); auto.
    + rewrite Forall_forall in H2. destruct (H2 err Hin); auto.
Qed.

(** X29: when no triple re-validates cleanly and the last one carries a
    resolution error, [resolve] yields the resolution errors in order and
    then the error remembered from the last failed candidate, and the text
    it replaces in the message of that error is the [repr] of the value of
    the last triple, not of the candidate the error came from. *)
Theorem resolve_rewrites_with_last_value (self : BaseFn.t)
  (validator : BaseFn.Validator) (s : value) (instance : list (string * value))
  (schema : value) (key : string) (arg : value) (pre : list triple)
  (value : Py.value) (v : BaseFn.Validator) (e : ValidationError.t) :
  BaseFn.key_value self instance = inr (key, arg) ->
  BaseFn.resolve_value validator (VDict instance) = pre ++ [(value, v, Some e)] ->
  forallb (fun t => negb (clean s key t)) pre = true ->
  BaseFn.out (BaseFn.resolve self validator s instance schema) =
  Gen (carried pre ++ e ::
       match BaseFn.return_err (foldl (remember self s key) (BaseFn.Loop None VNone) pre)
       with
       | Some err =>
           [ValidationError.mk
              (replace (ValidationError.message err) (repr value)
                       (repr (VDict instance))
               +:+ " when " +:+ repr_str (BaseFn.name (BaseFn.fn self))
               +:+ " is resolved")
              (ValidationError.validator err) (ValidationError.path err)]
       | None => []
       end) None.
Proof.
  intros Hkey Hts Hpre.
  rewrite (resolve_exhausted self validator s instance schema key arg Hkey).
  - rewrite Hts. cbn [BaseFn.out]. rewrite foldl_app. cbn [foldl remember].
    unfold carried. rewrite omap_app. cbn [omap]. cbn [snd BaseFn.return_err BaseFn.value_].
    rewrite <- app_assoc. reflexivity.
  - rewrite Hts, forallb_app, Hpre. reflexivity.
Qed.

End rule.

Lemma resolve_type_deeper_witness :
  BaseFn.resolve_type (E := example_engine) (1 + 999) ref_rule tt
    (VDict [("$ref", VStr "#/definitions/Any")]) = inr [].
Proof.
  apply (resolve_type_deeper (E := example_engine) 1 999 ref_rule tt
           (VDict [("$ref", VStr "#/definitions/Any")]) []).
  reflexivity.
Defined.

Lemma resolve_type_cycle_witness :
  BaseFn.validate_fn_output_types (E := looping_engine) ref_rule tt looping_schema
    [("Ref", VStr "Env")] = gen_raise RecursionError.
Proof.
  apply (resolve_type_cycle (E := looping_engine) ref_rule tt
           [("$ref", VStr "#/definitions/Loop")] (VStr "#/definitions/Loop")
           [("Ref", VStr "Env")]); reflexivity.
Defined.

Lemma validate_error_identities_witness :
  ValidationError.validator
    (ValidationError.mk "{'Fn::Sub': '${Env}-bucket'} is not of type 'integer'"
       (Some "Fn::Sub") []) = Some "Fn::Sub" \/
  ValidationError.validator
    (ValidationError.mk "{'Fn::Sub': '${Env}-bucket'} is not of type 'integer'"
       (Some "Fn::Sub") []) = Some "ref" \/
  exists t : value * unit * option ValidationError.t,
    t ∈ example_resolve_value tt (VDict [("Fn::Sub", VStr "${Env}-bucket")]) /\
    t.2 = Some (ValidationError.mk
                  "{'Fn::Sub': '${Env}-bucket'} is not of type 'integer'"
                  (Some "Fn::Sub") []).
Proof.
  apply (validate_error_identities (E := example_engine) sub_rule tt integer_schema
           [("Fn::Sub", VStr "${Env}-bucket")] integer_schema
           "Fn::Sub" (VStr "${Env}-bucket")).
  - reflexivity.
  - vm_compute. left.
Defined.

Lemma resolve_rewrites_with_last_value_witness :
  BaseFn.out (BaseFn.resolve (E := looping_engine) ref_rule tt integer_schema
                [("Ref", VStr "Env")] integer_schema)
  = Gen [unresolved_error;
         ValidationError.mk "'dev' is not of type 'integer' when 'Ref' is resolved"
           (Some "Ref") [VStr "Ref"]] None.
Proof.
  rewrite (resolve_rewrites_with_last_value (E := looping_engine) ref_rule tt
             integer_schema [("Ref", VStr "Env")] integer_schema "Ref" (VStr "Env")
             [(VStr "dev", tt, None)] (VStr "gone") tt unresolved_error
             eq_refl eq_refl eq_refl).
  vm_compute. reflexivity.
Defined.

Lemma validate_descends_on_own_name_witness :
  exists rest,
    BaseFn.calls (BaseFn.validate (E := example_engine) sub_rule tt string_schema
                    [("Ref", VStr "Env")] string_schema)
    = BaseFn.CallDescend (E := example_engine) tt VNone
        (VDict [("type", VList [VStr "string"])]) "Ref" :: rest.
Proof.
  apply (validate_descends_on_own_name (E := example_engine) sub_rule tt
           string_schema string_schema "Ref" (VStr "Env")).
  reflexivity.
Defined.
